(** * Date compatibility of the selected map layers (the [useLayers] hook)

    A shallow embedding of the date logic of the hook: the per-day occurrence
    count of the dates of the selected layers, the selectable dates derived
    from it, and the effects that reconcile the layers and the date of the
    address bar with them.

    The values that the hook memoises are functions of its input, and an
    effect is a function from the input to the list of what it does to the
    store, the address bar and the console.  The functions of the application
    that the hook imports are the fields of the class [Collaborators]; the
    built-in [Date], the strings and lodash are embedded as far as the hook
    uses them. *)

From Stdlib Require Import ZArith Lia Ascii String Sorted.
From stdpp Require Import base option list strings gmap.

Local Open Scope string_scope.
Local Open Scope list_scope.
Local Open Scope Z_scope.

(** ** Time values and the calendar of the built-in [Date] *)

(** A time value is a number of milliseconds since the epoch, or [NaN]
    ([None]), the value of an invalid [Date]. *)
Definition TimeValue : Type := option Z.

Definition msPerDay : Z := 86400000.
Definition msPerHour : Z := 3600000.
Definition msPerMinute : Z := 60000.
Definition msPerSecond : Z := 1000.

(** The largest magnitude of a valid time value. *)
Definition maxTime : Z := 8640000000000000.

Definition TimeClip (t : Z) : TimeValue :=
  if Z.abs t <=? maxTime then Some t else None.

(** [Day(t)] and [TimeWithinDay(t)]: floor division, also before the epoch. *)
Definition Day (t : Z) : Z := t / msPerDay.
Definition TimeWithinDay (t : Z) : Z := t mod msPerDay.

(** Midday UTC of the day with number [d]. *)
Definition midday (d : Z) : Z := d * msPerDay + 12 * msPerHour.

(** Year, month (1 to 12) and day of the month of a day number, in the
    proleptic Gregorian calendar ([YearFromTime], [MonthFromTime] and
    [DateFromTime]).  Days are counted from 1 March of year 0 in eras of 400
    years, centuries, groups of four years and years, so that the leap day is
    the last day of each. *)
Definition civil_from_days (z : Z) : Z * Z * Z :=
  let z := z + 719468 in
  let era := z / 146097 in
  let doe := z mod 146097 in
  let c := Z.min (doe / 36524) 3 in
  let doc := doe - 36524 * c in
  let q := doc / 1461 in
  let doq := doc - 1461 * q in
  let r := Z.min (doq / 365) 3 in
  let doy := doq - 365 * r in
  let mp := (5 * doy + 2) / 153 in
  let d := doy - (153 * mp + 2) / 5 + 1 in
  let m := if mp <? 10 then mp + 3 else mp - 9 in
  let y := 400 * era + 100 * c + 4 * q + r + (if m <=? 2 then 1 else 0) in
  (y, m, d).

(** The day number of a year, month and day of the month ([MakeDay]). *)
Definition days_from_civil (y m d : Z) : Z :=
  let y := if m <=? 2 then y - 1 else y in
  let era := y / 400 in
  let yoe := y mod 400 in
  let mp := if m <=? 2 then m + 9 else m - 3 in
  let doy := (153 * mp + 2) / 5 + d - 1 in
  let doe := 365 * yoe + yoe / 4 - yoe / 100 + doy in
  146097 * era + doe - 719468.

(** Decimal digits. *)
Definition digit (n : Z) : ascii := ascii_of_nat (48 + Z.to_nat n).

Definition digit_value (c : ascii) : option Z :=
  let n := Z.of_nat (nat_of_ascii c) in
  if (48 <=? n) && (n <=? 57) then Some (n - 48) else None.

(** [n] written with [w] digits, padded with zeros. *)
Fixpoint pad (w : nat) (n : Z) : string :=
  match w with
  | O => ""
  | S w' => pad w' (n / 10) +:+ String (digit (n mod 10)) ""
  end.

(** The number written by a string of digits, read after [acc]. *)
Fixpoint digits_value (acc : Z) (s : list ascii) : option Z :=
  match s with
  | [] => Some acc
  | c :: s' =>
      match digit_value c with
      | Some v => digits_value (10 * acc + v) s'
      | None => None
      end
  end.

(** The year of [toISOString]: four digits, or a sign and six digits outside
    of the years 0 to 9999. *)
Definition yearString (y : Z) : string :=
  if (0 <=? y) && (y <=? 9999) then pad 4 y
  else (if 0 <=? y then "+" else "-") +:+ pad 6 (Z.abs y).

(** [new Date(t).toISOString()] for a valid time value [t], one whose
    magnitude is [maxTime] at most.  For another number the built-in throws a
    [RangeError]: the string is what the method returns when it returns, and
    the properties that read it state that the time values are valid
    ([validTime] below). *)
Definition toISOString (t : Z) : string :=
  let '(y, m, d) := civil_from_days (Day t) in
  let w := TimeWithinDay t in
  yearString y +:+ "-" +:+ pad 2 m +:+ "-" +:+ pad 2 d +:+ "T"
  +:+ pad 2 (w / msPerHour) +:+ ":" +:+ pad 2 (w mod msPerHour / msPerMinute)
  +:+ ":" +:+ pad 2 (w mod msPerMinute / msPerSecond)
  +:+ "." +:+ pad 3 (w mod msPerSecond) +:+ "Z".

(** [s.slice(0, 10)]. *)
Definition slice_0_10 (s : string) : string := substring 0 10 s.

(** The date-only form [YYYY-MM-DD] of the date-time string format, read as
    UTC midnight.  A string that is not of this form, or that names a day the
    calendar does not have, is left to the implementation-defined part of
    [Date.parse]. *)
Definition parseISODate (s : string) : option Z :=
  match String.list_ascii_of_string s with
  | [y1; y2; y3; y4; dash1; m1; m2; dash2; d1; d2] =>
      if Ascii.eqb dash1 "-" && Ascii.eqb dash2 "-" then
        y ← digits_value 0 [y1; y2; y3; y4];
        m ← digits_value 0 [m1; m2];
        d ← digits_value 0 [d1; d2];
        let n := days_from_civil y m d in
        if bool_decide (civil_from_days n = (y, m, d))
        then Some (n * msPerDay) else None
      else None
  | _ => None
  end.

(** The date-only form [±YYYYYY-MM] of the date-time string format, with an
    expanded year: UTC midnight of the first day of the month.  The year 0 is
    written with the sign [+]. *)
Definition parseExpandedYearMonth (s : string) : option Z :=
  match String.list_ascii_of_string s with
  | [sign; y1; y2; y3; y4; y5; y6; dash; m1; m2] =>
      if (Ascii.eqb sign "+" || Ascii.eqb sign "-") && Ascii.eqb dash "-" then
        y ← digits_value 0 [y1; y2; y3; y4; y5; y6];
        m ← digits_value 0 [m1; m2];
        if (1 <=? m) && (m <=? 12) && negb (Ascii.eqb sign "-" && (y =? 0))
        then Some (days_from_civil (if Ascii.eqb sign "-" then - y else y) m 1
                   * msPerDay)
        else None
      else None
  | _ => None
  end.

(** [new Date(s)] for a string [s]: the two date-only forms of the date-time
    string format that [toISOString().slice(0, 10)] writes first, then
    whatever else the implementation [legacy] recognises. *)
Definition Date_of_string (legacy : string → TimeValue) (s : string) : TimeValue :=
  t ← match parseISODate s with
      | Some t => Some t
      | None =>
          match parseExpandedYearMonth s with
          | Some t => Some t
          | None => legacy s
          end
      end;
  TimeClip t.

(** [date.setUTCHours(12, 0, 0, 0)], the new time value of the date. *)
Definition setUTCHours_12_0_0_0 (v : TimeValue) : TimeValue :=
  t ← v; TimeClip (midday (Day t)).


(** The time values of the years 0000 to 9999, which [toISOString] writes with
    a four-digit year: from 0000-01-01T00:00:00.000Z to
    9999-12-31T23:59:59.999Z. *)
Definition fourDigitYear (t : Z) : Prop :=
  -62167219200000 <= t < 253402300800000.

(** The valid time values, the numbers for which [toISOString] returns: from
    -271821-04-20T00:00:00.000Z to +275760-09-13T00:00:00.000Z. *)
Definition validTime (t : Z) : Prop := - maxTime <= t <= maxTime.

(** ** Strings and objects *)

(** [s.split(',')]: never empty, the empty string gives one empty piece. *)
Fixpoint split_comma (s : string) : list string :=
  match s with
  | EmptyString => [EmptyString]
  | String c s' =>
      if Ascii.eqb c "," then EmptyString :: split_comma s'
      else match split_comma s' with
           | [] => [String c EmptyString]
           | w :: ws => String c w :: ws
           end
  end.

(** [a.join(',')]. *)
Definition join_comma (a : list string) : string := String.concat "," a.

(** [a[i]], undefined outside of the array. *)
Definition at_index {A} (a : list A) (i : Z) : option A :=
  if i <? 0 then None else a !! Z.to_nat i.

(** An object with string keys, none of them an array index, as the list of
    its properties in creation order: the order of [Object.keys]. *)
Definition Obj (V : Type) : Type := list (string * V).

Definition Object_keys {V} (o : Obj V) : list string := o.*1.

(** [result[key] += 1], or [result[key] = 1] for a new key. *)
Fixpoint increment (key : string) (result : Obj nat) : Obj nat :=
  match result with
  | [] => [(key, 1%nat)]
  | (k, n) :: rest =>
      if String.eqb k key then (k, S n) :: rest
      else (k, n) :: increment key rest
  end.

(** lodash's [countBy(collection)] on an array of strings. *)
Definition countBy (collection : list string) : Obj nat :=
  foldl (λ result key, increment key result) [] collection.

(** lodash's [pickBy(object, predicate)]. *)
Definition pickBy {V} (object : Obj V) (predicate : V → bool) : Obj V :=
  filter (λ kv, predicate kv.2 = true) object.

(** [object[key]]. *)
Fixpoint Obj_get {V} (key : string) (object : Obj V) : option V :=
  match object with
  | [] => None
  | (k, v) :: rest => if String.eqb k key then Some v else Obj_get key rest
  end.

(** How many times [key] occurs in an array. *)
Definition occurrences (key : string) (a : list string) : nat :=
  length (filter (λ k, k = key) a).

(** The names that a plain object inherits from [Object.prototype]. *)
Definition Object_prototype_names : list string :=
  ["constructor"; "__defineGetter__"; "__defineSetter__"; "hasOwnProperty";
   "__lookupGetter__"; "__lookupSetter__"; "isPrototypeOf";
   "propertyIsEnumerable"; "toString"; "valueOf"; "__proto__"; "toLocaleString"].

(** [key in object] for a plain object used as a map: [key] is one of its own
    properties, or a name that it inherits. *)
Definition key_in {V} (key : string) (object : gmap string V) : bool :=
  bool_decide (is_Some (object !! key))
  || bool_decide (key ∈ Object_prototype_names).

(** A consistent comparator, as the language defines it for [sort]: with
    [compare a b < 0], [= 0] and [> 0] read as [a] before, level with and
    after [b], being level is reflexive, symmetric and transitive, and before
    and after are transitive. *)
Definition consistentComparator {A} (compare : A → A → Z) : Prop :=
  (∀ a, compare a a = 0)
  ∧ (∀ a b, compare a b = 0 → compare b a = 0)
  ∧ (∀ a b c, compare a b = 0 → compare b c = 0 → compare a c = 0)
  ∧ (∀ a b c, compare a b < 0 → compare b c < 0 → compare a c < 0)
  ∧ (∀ a b c, compare a b > 0 → compare b c > 0 → compare a c > 0).

(** [[...a].sort(compare)]: [b] goes before [a] when [compare a b > 0].  For
    a consistent comparator the language fixes the result, the array in the
    order of the comparator with the elements that are level in their former
    order, and this is it; for another comparator the order is
    implementation-defined, and this is one of the orders that an
    implementation may give. *)
Fixpoint sort_insert {A} (compare : A → A → Z) (x : A) (sorted : list A) : list A :=
  match sorted with
  | [] => [x]
  | y :: rest =>
      if compare x y <=? 0 then x :: y :: rest
      else y :: sort_insert compare x rest
  end.

Definition sort {A} (compare : A → A → Z) (a : list A) : list A :=
  foldr (sort_insert compare) [] a.

(** Truthiness of [number | undefined] and of [string | null]. *)
Definition truthy_number (n : option Z) : bool :=
  match n with Some z => negb (z =? 0) | None => false end.

Definition truthy_string (s : option string) : bool :=
  match s with Some s => negb (String.eqb s "") | None => false end.

(** [a === b] on numbers: [NaN] and [undefined] are equal to no number. *)
Definition number_eq (a b : option Z) : bool :=
  match a, b with Some x, Some y => x =? y | _, _ => false end.

(** ** Layers, dates, the address bar and the effects *)

Inductive LayerKind : Type :=
  | boundary | wms | admin_level_data | impact | point_data | static_raster
  | composite.

Global Instance LayerKind_eq_dec : EqDecision LayerKind.
Proof. solve_decision. Defined.

(** The fields of a layer definition that the hook reads. *)
Record LayerType : Type := {
  id : string;
  type : LayerKind;
  title : string;
  dates : option (list string);
  dateLayer : string;
}.

Global Instance LayerType_eq_dec : EqDecision LayerType.
Proof. solve_decision. Defined.

Record DateItem : Type := { displayDate : Z }.

Global Instance DateItem_eq_dec : EqDecision DateItem.
Proof. solve_decision. Defined.

(** A selected layer with date support, with its date items. *)
Record LayerWithDateItems : Type := {
  layer : LayerType;
  dateItems : list DateItem;
}.

(** The keys of the address bar: the two lists of layer ids and the date. *)
Inductive UrlKey : Type := HAZARD | ADMINLEVEL | DATE.

Global Instance UrlKey_eq_dec : EqDecision UrlKey.
Proof. solve_decision. Defined.

Inductive NotificationType : Type := info | warning | error.

Global Instance NotificationType_eq_dec : EqDecision NotificationType.
Proof. solve_decision. Defined.

(** What an effect of the hook does to its collaborators: the store
    ([dispatch]), the address bar and the console. *)
Inductive Effect : Type :=
  | addNotification (message : string) (type : NotificationType)
  | addLayer (layer : LayerType)
  | removeLayer (layer : LayerType)
  | updateDateRange (startDate : Z)
  | updateHistory (key : UrlKey) (value : string)
  | removeLayerFromUrl (key : UrlKey) (layerId : string)
  | console_warn
  | console_error (message : string).

Global Instance Effect_eq_dec : EqDecision Effect.
Proof. solve_decision. Defined.

(** The effects performed so far and the result, [None] after an exception. *)
Definition Eff (A : Type) : Type := list Effect * option A.

Definition ret {A} (a : A) : Eff A := ([], Some a).

Definition throw {A} : Eff A := ([], None).

Definition perform (e : Effect) : Eff unit := ([e], Some tt).

Definition bind {A B} (m : Eff A) (f : A → Eff B) : Eff B :=
  match m.2 with
  | Some a => (m.1 ++ (f a).1, (f a).2)
  | None => (m.1, None)
  end.

Notation "m ;;; k" := (bind m (λ _, k))
  (at level 100, k at level 200, right associativity).

(** [a.forEach(f)]. *)
Fixpoint forEach {A} (a : list A) (f : A → Eff unit) : Eff unit :=
  match a with
  | [] => ret tt
  | x :: rest => f x ;;; forEach rest f
  end.

(** The functions and tables of the application that the hook calls. *)
Class Collaborators : Type := {
  (** the layer registry *)
  LayerDefinitions : gmap string LayerType;
  isMainLayer : string → list LayerType → bool;
  layerOrdering : LayerType → LayerType → Z;
  (** the date items of a layer, [None] for [undefined] *)
  getPossibleDatesForLayer :
    LayerType → gmap string (list DateItem) → option (list DateItem);
  findClosestDate : Z → list TimeValue → TimeValue;
  binaryIncludes : list DateItem → TimeValue → (DateItem → TimeValue) → bool;
  datesAreEqualWithoutTime : TimeValue → TimeValue → bool;
  (** [getFormattedDate(date, DateFormat.Default)] *)
  getFormattedDate : TimeValue → string;
  getTimeInMilliseconds : string → TimeValue;
  getUrlKey : LayerType → UrlKey;
  (** its effects, and the message of the error it throws, if any *)
  checkLayerAvailableDatesAndContinueOrRemove :
    LayerType → gmap string (list DateItem) → list Effect * option string;
  (** the strings that [Date.parse] accepts beyond the date-time format *)
  legacyDateParse : string → TimeValue;
}.

(** What the hook reads from the address bar, the store and the clock. *)
Record HookInput : Type := {
  urlParams : UrlKey → option string;
  unsortedSelectedLayers : list LayerType;
  serverAvailableDates : gmap string (list DateItem);
  selectedDate : option Z;
  currentTime : Z;
}.

(** ** The hook *)

Section useLayers.
Context `{Collaborators}.

Definition dateSupportLayerTypes : list LayerKind :=
  [impact; point_data; wms; static_raster].

Definition hazardLayerIds (st : HookInput) : option string := urlParams st HAZARD.

Definition hazardLayersArray (st : HookInput) : list string :=
  match hazardLayerIds st with Some ids => split_comma ids | None => [] end.

Definition baselineLayerIds (st : HookInput) : option string :=
  urlParams st ADMINLEVEL.

Definition baselineLayersArray (st : HookInput) : list string :=
  match baselineLayerIds st with Some ids => split_comma ids | None => [] end.

Definition numberOfActiveLayers (st : HookInput) : nat :=
  (length (hazardLayersArray st) + length (baselineLayersArray st))%nat.

(** The selected layers in the order of [layerOrdering], which prioritises
    boundary and point data layers. *)
Definition selectedLayers (st : HookInput) : list LayerType :=
  sort layerOrdering (unsortedSelectedLayers st).

(** The first filter of [selectedLayersWithDateSupport].  The table of the
    server is a plain object, and [in] holds of the names that it inherits as
    well as of its keys. *)
Definition supportsDates (available : gmap string (list DateItem))
    (layer : LayerType) : bool :=
  match type layer with
  | admin_level_data | static_raster => bool_decide (is_Some (dates layer))
  | wms => key_in (id layer) available
  | composite => key_in (dateLayer layer) available
  | kind => bool_decide (kind ∈ dateSupportLayerTypes)
  end.

(** The selected main layers with date support, each with its date items.
    [None] when the date items of one of them are [undefined], and filtering
    them throws.  The date items are objects: the null check on them and
    [flat] keep them all. *)
Definition selectedLayersWithDateSupport (st : HookInput)
    : option (list LayerWithDateItems) :=
  mapM (λ layer,
          items ← getPossibleDatesForLayer layer (serverAvailableDates st);
          Some {| layer := layer; dateItems := items |})
       (filter (λ layer, isMainLayer (id layer) (selectedLayers st) = true)
          (filter (λ layer, supportsDates (serverAvailableDates st) layer = true)
             (selectedLayers st))).

(** The day of a date item, as [toISOString] writes it:
    [new Date(value.displayDate).toISOString().slice(0, 10)].  The display
    date of a date item is a valid time value. *)
Definition dayString (value : DateItem) : string :=
  slice_0_10 (toISOString (displayDate value)).

(** How many date items of the layers fall on each day.  The null check drops
    the layers whose date items are [undefined]. *)
Definition selectedLayerDatesDupCount (layers : list LayerWithDateItems)
    (available : gmap string (list DateItem)) : Obj nat :=
  countBy
    (dayString <$>
       concat (omap (λ l, getPossibleDatesForLayer (layer l) available) layers)).

(** The dates that the user can pick with the selected layers. *)
Definition selectedLayerDates (layers : list LayerWithDateItems)
    (available : gmap string (list DateItem)) : list TimeValue :=
  if (length layers =? 0)%nat then []
  else
    (λ dateString,
       setUTCHours_12_0_0_0 (Date_of_string legacyDateParse dateString))
    <$> Object_keys
          (pickBy (selectedLayerDatesDupCount layers available)
                  (λ dupTimes, (length layers <=? dupTimes)%nat)).

(** The date items that count for a layer: none when they are [undefined]. *)
Definition possibleDates (available : gmap string (list DateItem))
    (l : LayerWithDateItems) : list DateItem :=
  default [] (getPossibleDatesForLayer (layer l) available).

(** The layer has a date item on the day with number [d]. *)
Definition hasDateOn (available : gmap string (list DateItem)) (d : Z)
    (l : LayerWithDateItems) : Prop :=
  ∃ item, item ∈ possibleDates available l ∧ Day (displayDate item) = d.

(** No two date items of the layer are on the same day, as [toISOString]
    writes it. *)
Definition distinctDays (available : gmap string (list DateItem))
    (l : LayerWithDateItems) : Prop :=
  NoDup (dayString <$> possibleDates available l).

(** The date items of the layer are in the years 0000 to 9999. *)
Definition fourDigitYears (available : gmap string (list DateItem))
    (l : LayerWithDateItems) : Prop :=
  ∀ item, item ∈ possibleDates available l → fourDigitYear (displayDate item).

(** The date items of the layer are valid time values: [toISOString] returns
    for each of them. *)
Definition validTimes (available : gmap string (list DateItem))
    (l : LayerWithDateItems) : Prop :=
  ∀ item, item ∈ possibleDates available l → validTime (displayDate item).

Definition selectedLayersIds (st : HookInput) : list string :=
  id <$> selectedLayers st.

Definition urlLayerIds (st : HookInput) : list string :=
  hazardLayersArray st ++ baselineLayersArray st.

Definition missingLayers (st : HookInput) : list string :=
  filter (λ layerId, layerId ∉ selectedLayersIds st) (urlLayerIds st).

Definition serverAvailableDatesAreEmpty (st : HookInput) : bool :=
  (size (serverAvailableDates st) =? 0)%nat.

Definition layerDefinitionIds : list string := (map_to_list LayerDefinitions).*1.

Definition invalidLayersIds (st : HookInput) : list string :=
  filter (λ layerId, layerId ∉ layerDefinitionIds) (urlLayerIds st).

(** Adds the layers of the address bar that are not selected yet.  It runs
    when every layer id of the address bar is in the registry. *)
Definition addMissingLayers (st : HookInput) : Eff unit :=
  forEach (missingLayers st) (λ layerId,
    match LayerDefinitions !! layerId with
    | None => throw
    | Some layer =>
        let checked :=
          checkLayerAvailableDatesAndContinueOrRemove layer
            (serverAvailableDates st) in
        (checked.1, Some tt) ;;;
        match checked.2 with
        | Some message => perform (console_error message)
        | None => perform (addLayer layer)
        end
    end).

Definition urlDate (st : HookInput) : option string := urlParams st DATE.

(** The date integer from the address bar. *)
Definition dateInt (st : HookInput) : TimeValue :=
  setUTCHours_12_0_0_0
    (match urlDate st with
     | Some s =>
         if String.eqb s "" then TimeClip (currentTime st)
         else Date_of_string legacyDateParse s
     | None => TimeClip (currentTime st)
     end).

(** The effect that loads the layers and the date of the address bar. *)
Definition loadFromUrl (st : HookInput) : Eff unit :=
  if (negb (truthy_string (hazardLayerIds st))
      && negb (truthy_string (baselineLayerIds st)))
     || serverAvailableDatesAreEmpty st
  then ret tt
  else if (0 <? length (invalidLayersIds st))%nat then
    perform
      (addNotification
         ("Invalid layer identifier(s): " +:+ join_comma (invalidLayersIds st))
         error)
  else
    addMissingLayers st ;;;
    if negb (truthy_string (urlDate st)) || number_eq (dateInt st) (selectedDate st)
    then ret tt
    else
      match dateInt st with
      | Some startDate =>
          perform (updateDateRange startDate) ;;;
          perform (updateHistory DATE (getFormattedDate (dateInt st)))
      | None =>
          perform
            (addNotification "Invalid date found. Using most recent date" warning)
      end.

Definition removeLayerAndUpdateHistory (st : HookInput)
    (layerToRemove layerToKeep : LayerType) : Eff unit :=
  match selectedDate st with
  | Some date =>
      if date =? 0 then ret tt
      else
        perform (removeLayerFromUrl (getUrlKey layerToRemove) (id layerToRemove)) ;;;
        perform (removeLayer layerToRemove) ;;;
        match getPossibleDatesForLayer layerToKeep (serverAvailableDates st) with
        | None => throw
        | Some items =>
            let layerToKeepDates := (λ dateItem, Some (displayDate dateItem)) <$> items in
            let closestDate := findClosestDate date layerToKeepDates in
            perform (updateHistory DATE (getFormattedDate closestDate))
        end
  | None => ret tt
  end.

(** The effect that tells the user when the selected layers have no date in
    common.  It does not run when the hook threw while rendering.  Reading the
    id of [selectedLayers[length - 2]] throws when there is one selected layer
    only; the last selected layer exists when the last but one does. *)
Definition removeLayerWithoutOverlap (st : HookInput) : Eff unit :=
  match selectedLayersWithDateSupport st with
  | None => throw
  | Some layers =>
      if negb (length (selectedLayerDates layers (serverAvailableDates st)) =? 0)%nat
         || (length layers =? 0)%nat
         || negb (truthy_number (selectedDate st))
      then ret tt
      else
        let n := Z.of_nat (length (selectedLayers st)) in
        match at_index (selectedLayers st) (n - 2) with
        | None => throw
        | Some layerToRemove =>
            perform
              (addNotification
                 ("No dates overlap with the selected layers. Removing previous layer: "
                  +:+ id layerToRemove +:+ ".")
                 warning) ;;;
            match at_index (selectedLayers st) (n - 1) with
            | None => throw
            | Some layerToKeep =>
                removeLayerAndUpdateHistory st layerToRemove layerToKeep
            end
        end
  end.

(** [date.setUTCHours(12, 0, 0, 0)] changes [date], and its new time value is
    what is searched in the dates of the layer.  [None] when the dates of the
    layer are [undefined] and the search throws; the dates of a layer with
    date support are defined when the hook has rendered. *)
Definition possibleDatesForLayerIncludeSelectedDate
    (available : gmap string (list DateItem)) (l : LayerType) (date : TimeValue)
    : option bool :=
  items ← getPossibleDatesForLayer l available;
  Some (binaryIncludes items (setUTCHours_12_0_0_0 date)
          (λ x, setUTCHours_12_0_0_0 (TimeClip (displayDate x)))).

(** The message of the last effect for a layer. *)
Definition noDataMessage (l : LayerWithDateItems)
    (jsSelectedDate closestDate : TimeValue) : string :=
  "No data was found for layer '" +:+ title (layer l) +:+ "' on "
  +:+ getFormattedDate jsSelectedDate +:+ ". The closest date "
  +:+ getFormattedDate closestDate +:+ " has been loaded instead.".

(** What the last effect does for one layer, for a selected date [date]. *)
Definition snapToClosestDate (st : HookInput) (layers : list LayerWithDateItems)
    (date : Z) (l : LayerWithDateItems) : Eff unit :=
  let jsSelectedDate := TimeClip date in
  if serverAvailableDatesAreEmpty st then ret tt
  else
    match possibleDatesForLayerIncludeSelectedDate (serverAvailableDates st)
            (layer l) jsSelectedDate with
    | None => throw
    | Some true => ret tt
    | Some false =>
        let jsSelectedDate := setUTCHours_12_0_0_0 jsSelectedDate in
        let closestDate :=
          findClosestDate date (selectedLayerDates layers (serverAvailableDates st)) in
        (if datesAreEqualWithoutTime jsSelectedDate closestDate
         then perform console_warn ;;; perform console_warn
         else perform (updateHistory DATE (getFormattedDate closestDate))) ;;;
        perform
          (addNotification (noDataMessage l jsSelectedDate closestDate) warning)
    end.

(** The effect that moves the date of the address bar when a layer has no
    data on the selected date. *)
Definition snapDateOutOfRange (st : HookInput) : Eff unit :=
  match selectedLayersWithDateSupport st with
  | None => throw
  | Some layers =>
      match selectedDate st, urlDate st with
      | Some date, Some url =>
          if (date =? 0) || String.eqb url ""
             || number_eq (getTimeInMilliseconds url) (Some date)
          then ret tt
          else forEach layers (snapToClosestDate st layers date)
      | _, _ => ret tt
      end
  end.

(** ** What the effects are stated against *)

(** The layer has no date item on the day of the selected date [date]. *)
Definition lacksSelectedDate (date : Z) (l : LayerWithDateItems) : bool :=
  negb (binaryIncludes (dateItems l) (setUTCHours_12_0_0_0 (TimeClip date))
          (λ x, setUTCHours_12_0_0_0 (TimeClip (displayDate x)))).

(** The closest selectable date to the selected date [date]. *)
Definition closestSelectableDate (st : HookInput)
    (layers : list LayerWithDateItems) (date : Z) : TimeValue :=
  findClosestDate date (selectedLayerDates layers (serverAvailableDates st)).

(** The notification of the last effect for a layer. *)
Definition noDataNotification (st : HookInput) (layers : list LayerWithDateItems)
    (date : Z) (l : LayerWithDateItems) : Effect :=
  addNotification
    (noDataMessage l (setUTCHours_12_0_0_0 (TimeClip date))
       (closestSelectableDate st layers date))
    warning.

(** What the last effect does for a layer without a date item on the
    selected date: it moves the date of the address bar, unless the closest
    date is on the selected day, and it notifies the user. *)
Definition snapEffects (st : HookInput) (layers : list LayerWithDateItems)
    (date : Z) (l : LayerWithDateItems) : list Effect :=
  (if datesAreEqualWithoutTime (setUTCHours_12_0_0_0 (TimeClip date))
        (closestSelectableDate st layers date)
   then [console_warn; console_warn]
   else [updateHistory DATE (getFormattedDate (closestSelectableDate st layers date))])
  ++ [noDataNotification st layers date l].

(** The guard of the last effect lets it run. *)
Definition snapRuns (st : HookInput) (date : Z) : Prop :=
  selectedDate st = Some date ∧ date ≠ 0
  ∧ (∃ url, urlDate st = Some url ∧ url ≠ ""
            ∧ number_eq (getTimeInMilliseconds url) (Some date) = false)
  ∧ serverAvailableDatesAreEmpty st = false.

(** The guard of the effect of the address bar lets it run: there are layer
    ids in the address bar and the table of the server has dates. *)
Definition loadRuns (st : HookInput) : Prop :=
  (truthy_string (hazardLayerIds st) = true
   ∨ truthy_string (baselineLayerIds st) = true)
  ∧ serverAvailableDatesAreEmpty st = false.

(** The notifications of the effect of the address bar. *)
Definition invalidLayersNotification (st : HookInput) : Effect :=
  addNotification
    ("Invalid layer identifier(s): " +:+ join_comma (invalidLayersIds st)) error.

Definition invalidDateNotification : Effect :=
  addNotification "Invalid date found. Using most recent date" warning.

(** The notification of the effect of the layers without a common date. *)
Definition noOverlapNotification (layerToRemove : LayerType) : Effect :=
  addNotification
    ("No dates overlap with the selected layers. Removing previous layer: "
     +:+ id layerToRemove +:+ ".")
    warning.

(** The guard of the effect of the layers without a common date lets it run
    with at least two layers with date support: none of their dates is
    selectable and a date is selected. *)
Definition noOverlap (st : HookInput) (layers : list LayerWithDateItems)
    (date : Z) : Prop :=
  selectedLayersWithDateSupport st = Some layers
  ∧ (2 ≤ length layers)%nat
  ∧ selectedLayerDates layers (serverAvailableDates st) = []
  ∧ selectedDate st = Some date ∧ date ≠ 0.

End useLayers.

(** ** An instance of the collaborators, and example layers *)

(** Modelled from the spec: [findClosestDate] is not among the sources.  It
    minimises the absolute difference to the target, keeps the earlier
    candidate of the array on a tie, and gives the target back when there is
    no candidate. *)
Definition closestOf (date : Z) (availableDates : list TimeValue) : TimeValue :=
  match availableDates with
  | [] => Some date
  | first :: rest =>
      foldl (λ closest current,
               match closest, current with
               | Some c, Some x =>
                   if Z.abs (x - date) <? Z.abs (c - date) then current else closest
               | _, _ => closest
               end) first rest
  end.

(** Modelled from the spec: [binaryIncludes] is not among the sources.  A
    binary search for [target] among the keys of a sorted array, between the
    indices [left] and [right]; [fuel] bounds the number of halvings. *)
Fixpoint binaryFind {T} (fuel : nat) (arr : list T) (target : Z)
    (keyExtractor : T → TimeValue) (left right : Z) : bool :=
  match fuel with
  | O => false
  | S fuel' =>
      if right <? left then false
      else
        let mid := (left + right) / 2 in
        match at_index arr mid ≫= keyExtractor with
        | None => false
        | Some key =>
            if key =? target then true
            else if key <? target
                 then binaryFind fuel' arr target keyExtractor (mid + 1) right
                 else binaryFind fuel' arr target keyExtractor left (mid - 1)
        end
  end.

Definition binarySearch {T} (arr : list T) (target : TimeValue)
    (keyExtractor : T → TimeValue) : bool :=
  match target with
  | Some t =>
      binaryFind (S (length arr)) arr t keyExtractor 0 (Z.of_nat (length arr) - 1)
  | None => false
  end.

(** Modelled from the spec: [layerOrdering] is not among the sources.
    Boundary and point data layers sort first. *)
Definition priorityOrdering (a b : LayerType) : Z :=
  let rank (l : LayerType) : Z :=
    match type l with boundary => 0 | point_data => 1 | _ => 2 end in
  rank a - rank b.

(** Modelled from the spec: [getPossibleDatesForLayer] is not among the
    sources.  The dates of a layer are the ones of the table of the server
    under its id, and a composite layer borrows the ones of its date layer. *)
Definition datesOfTable (l : LayerType) (available : gmap string (list DateItem))
    : option (list DateItem) :=
  match type l with
  | composite => available !! dateLayer l
  | _ => available !! id l
  end.

Definition mkLayer (layerId : string) (kind : LayerKind) : LayerType :=
  {| id := layerId; type := kind; title := layerId; dates := None;
     dateLayer := "" |}.

Definition flood : LayerType := mkLayer "flood" wms.
Definition storm : LayerType := mkLayer "storm" wms.
Definition shelters : LayerType := mkLayer "shelters" point_data.

(** Modelled from the spec: the other collaborators are not among the
    sources.  Every layer is a main layer, dates are equal without time when
    their days are, the default format of a date is its day string, the
    address bar keeps the admin level layers apart from the hazard layers,
    every layer passes the check of its dates, and [Date.parse] reads the
    date-time format alone. *)
Definition prism : Collaborators := {|
  LayerDefinitions :=
    {[ "flood" := flood; "storm" := storm; "shelters" := shelters ]};
  isMainLayer := λ _ _, true;
  layerOrdering := priorityOrdering;
  getPossibleDatesForLayer := datesOfTable;
  findClosestDate := closestOf;
  binaryIncludes := binarySearch;
  datesAreEqualWithoutTime := λ a b,
    match a, b with Some x, Some y => Day x =? Day y | _, _ => false end;
  getFormattedDate := λ date,
    match date with
    | Some t => slice_0_10 (toISOString t)
    | None => "Invalid Date"
    end;
  getTimeInMilliseconds := Date_of_string (λ _, None);
  getUrlKey := λ l,
    match type l with admin_level_data => ADMINLEVEL | _ => HAZARD end;
  checkLayerAvailableDatesAndContinueOrRemove := λ _ _, ([], None);
  legacyDateParse := λ _, None;
|}.

(** Midnight UTC of the first days of January 2024. *)
Definition jan1 : Z := 1704067200000.
Definition jan2 : Z := 1704153600000.
Definition jan3 : Z := 1704240000000.


Definition dateItem (t : Z) : DateItem := {| displayDate := t |}.

(** A layer with the date items that the table of the server has for it. *)
Definition withDates (available : gmap string (list DateItem)) (l : LayerType)
    : LayerWithDateItems :=
  {| layer := l; dateItems := default [] (datesOfTable l available) |}.

(** The flood and the storm layers, with their date items in a table. *)
Definition floodAndStormOf (available : gmap string (list DateItem))
    : list LayerWithDateItems :=
  [withDates available flood; withDates available storm].

(** The flood layer has dates on 1 and 2 January, the storm layer on 2 and 3
    January. *)
Definition floodAndStorm : gmap string (list DateItem) :=
  {[ "flood" := [dateItem jan1; dateItem jan2];
     "storm" := [dateItem jan2; dateItem jan3] ]}.

(** The flood layer has two date items on 1 January, at 00:00 and at 06:00,
    and one on 2 January; the storm layer has one on 2 January. *)
Definition floodTwiceOnJan1 : gmap string (list DateItem) :=
  {[ "flood" := [dateItem jan1; dateItem (jan1 + 6 * msPerHour); dateItem jan2];
     "storm" := [dateItem jan2] ]}.

(** The flood layer has two date items on 1 January, the storm layer has no
    date item. *)
Definition stormWithoutDates : gmap string (list DateItem) :=
  {[ "flood" := [dateItem jan1; dateItem (jan1 + 6 * msPerHour)];
     "storm" := [] ]}.

(** The flood layer has dates on 1 and 2 January, the storm layer has no date
    item. *)
Definition stormEmpty : gmap string (list DateItem) :=
  {[ "flood" := [dateItem jan1; dateItem jan2]; "storm" := [] ]}.

(** ** Two laws of the selectable dates, as the specification words them *)

(** When every layer has a date item and the layers share a day, the
    selectable dates are exactly the days that every layer has. *)
Definition sharedDaysLaw (C : Collaborators)
    (layers : list LayerWithDateItems) (available : gmap string (list DateItem))
    : Prop :=
  (∀ l, l ∈ layers → possibleDates available l ≠ []) →
  (∃ d, ∀ l, l ∈ layers → hasDateOn available d l) →
  ∀ d, Some (midday d) ∈ selectedLayerDates layers available
       ↔ ∀ l, l ∈ layers → hasDateOn available d l.

(** When one of the layers has no date item, no date is selectable. *)
Definition layerWithoutDatesLaw (C : Collaborators)
    (layers : list LayerWithDateItems) (available : gmap string (list DateItem))
    : Prop :=
  layers ≠ [] →
  (∃ l, l ∈ layers ∧ possibleDates available l = []) →
  selectedLayerDates layers available = [].

(** ** Four laws of the effects, as the specification words them *)

(** Modelled from the spec: the reducer of [updateDateRange] is not among the
    sources.  The selected date is the start date of the last update of the
    date range. *)
Definition selectedDateAfter (date : option Z) (effects : list Effect) : option Z :=
  foldl (λ d e, match e with updateDateRange startDate => Some startDate | _ => d end)
        date effects.

(** When no date is selectable with two or more layers with date support, the
    second most recently added layer is removed, the most recently added one
    is kept, the user is notified and the date moves to the closest date of
    the layer that is kept. *)
Definition secondMostRecentLaw (C : Collaborators) (st : HookInput) : Prop :=
  ∀ layers date, noOverlap st layers date →
    ∃ others secondMostRecent mostRecent items,
      unsortedSelectedLayers st = others ++ [secondMostRecent; mostRecent]
      ∧ removeLayer secondMostRecent ∈ (removeLayerWithoutOverlap st).1
      ∧ (removeLayer mostRecent ∉ (removeLayerWithoutOverlap st).1)
      ∧ (∃ message, addNotification message warning ∈ (removeLayerWithoutOverlap st).1)
      ∧ getPossibleDatesForLayer mostRecent (serverAvailableDates st) = Some items
      ∧ updateHistory DATE
          (getFormattedDate
             (findClosestDate date ((λ x, Some (displayDate x)) <$> items)))
        ∈ (removeLayerWithoutOverlap st).1.

(** The first layer without a date item on the selected date is the only one
    for which the date moves and the user is notified. *)
Definition firstMismatchLaw (C : Collaborators) (st : HookInput) : Prop :=
  ∀ layers date,
    selectedLayersWithDateSupport st = Some layers → snapRuns st date →
    ∀ before first after,
      layers = before ++ first :: after →
      (∀ l, l ∈ before → lacksSelectedDate date l = false) →
      lacksSelectedDate date first = true →
      (snapDateOutOfRange st).1 = snapEffects st layers date first.

(** For a layer id of the address bar that is not in the registry, an error
    is notified and the layer is not added. *)
Definition invalidLayerLaw (C : Collaborators) (st : HookInput) : Prop :=
  ∀ layerId,
    layerId ∈ urlLayerIds st → LayerDefinitions !! layerId = None →
    (∃ message, addNotification message error ∈ (loadFromUrl st).1)
    ∧ ∀ l, id l = layerId → addLayer l ∉ (loadFromUrl st).1.

(** For a date of the address bar that cannot be parsed, the user is notified
    and the selected date becomes a valid date. *)
Definition invalidDateLaw (C : Collaborators) (st : HookInput) : Prop :=
  ∀ s,
    urlDate st = Some s → s ≠ "" → Date_of_string legacyDateParse s = None →
    (∃ message type, addNotification message type ∈ (loadFromUrl st).1)
    ∧ ∃ t, selectedDateAfter (selectedDate st) (loadFromUrl st).1 = Some t
           ∧ TimeClip t = Some t.

(** ** Example inputs of the hook *)

Definition url (hazard adminlevel date : option string) (key : UrlKey)
    : option string :=
  match key with HAZARD => hazard | ADMINLEVEL => adminlevel | DATE => date end.

(** Each of the three layers has its own day. *)
Definition oneDayEach : gmap string (list DateItem) :=
  {[ "flood" := [dateItem jan1]; "storm" := [dateItem jan2];
     "shelters" := [dateItem jan3] ]}.

(** The flood layer was added before the shelters, they have no date in
    common, and 1 January is selected. *)
Definition sheltersAddedLast : HookInput :=
  {| urlParams := url (Some "flood,shelters") None (Some "2024-01-01");
     unsortedSelectedLayers := [flood; shelters];
     serverAvailableDates := oneDayEach;
     selectedDate := Some (midday (Day jan1));
     currentTime := jan3 |}.

(** The flood and the storm layers have dates on 1 January alone, and
    2 January is selected. *)
Definition bothOnJan1 : gmap string (list DateItem) :=
  {[ "flood" := [dateItem jan1]; "storm" := [dateItem jan1] ]}.

Definition jan2Selected : HookInput :=
  {| urlParams := url (Some "flood,storm") None (Some "2024-01-02");
     unsortedSelectedLayers := [flood; storm];
     serverAvailableDates := bothOnJan1;
     selectedDate := Some (midday (Day jan2));
     currentTime := jan3 |}.

(** The flood layer has 1 January, the storm layer 2 January, and 3 January
    is selected: no date is selectable. *)
Definition jan3Selected : HookInput :=
  {| urlParams := url (Some "flood,storm") None (Some "2024-01-03");
     unsortedSelectedLayers := [flood; storm];
     serverAvailableDates := oneDayEach;
     selectedDate := Some (midday (Day jan3));
     currentTime := jan3 |}.

(** The address bar names a layer that the registry does not have, while the
    table of the server is still empty. *)
Definition volcanoBeforeDates : HookInput :=
  {| urlParams := url (Some "volcano") None None;
     unsortedSelectedLayers := [];
     serverAvailableDates := ∅;
     selectedDate := None;
     currentTime := jan3 |}.

(** The same address bar once the table of the server has dates. *)
Definition volcanoWithDates : HookInput :=
  {| urlParams := url (Some "flood,volcano") None None;
     unsortedSelectedLayers := [];
     serverAvailableDates := floodAndStorm;
     selectedDate := None;
     currentTime := jan3 |}.

(** The address bar has a date that cannot be parsed, and no date is selected
    yet. *)
Definition dateYesterday : HookInput :=
  {| urlParams := url (Some "flood") None (Some "yesterday");
     unsortedSelectedLayers := [flood];
     serverAvailableDates := floodAndStorm;
     selectedDate := None;
     currentTime := jan3 |}.

(** The layers with date support of the example inputs. *)
Definition sheltersAndFlood : list LayerWithDateItems :=
  [withDates oneDayEach shelters; withDates oneDayEach flood].

Definition bothOnJan1Layers : list LayerWithDateItems := floodAndStormOf bothOnJan1.

Definition oneDayEachLayers : list LayerWithDateItems := floodAndStormOf oneDayEach.

(** ** Further notions on the selectable dates *)

Section selectable_more.
Context `{Collaborators}.

(** How many date items of the layers are on the day with number [d]. *)
Definition itemsOn (available : gmap string (list DateItem)) (d : Z)
    (layers : list LayerWithDateItems) : nat :=
  length (filter (λ item, Day (displayDate item) = d)
            (concat (possibleDates available <$> layers))).

End selectable_more.

(** ** Further notions on the address bar *)

(** The number of commas of a string. *)
Fixpoint commas (s : string) : nat :=
  match s with
  | EmptyString => 0%nat
  | String c s' => ((if Ascii.eqb c "," then 1 else 0) + commas s')%nat
  end.

(** The number of layer ids that a parameter of the address bar holds. *)
Definition idsOf (parameter : option string) : nat :=
  match parameter with Some ids => S (commas ids) | None => 0%nat end.

(** ** The effect of the default layer, and further notions on the effects *)

Section effects_more.
Context `{Collaborators}.

(** The effect that loads the default layer of the configuration when the
    address bar has no layer.  [defaultLayer] is the entry of the
    configuration, [None] when it has none, and the second component of the
    result is the state [defaultLayerAttempted] after the effect.  The default
    layer is in the registry when its id is among the keys of the registry. *)
Definition loadDefaultLayer (st : HookInput) (defaultLayer : option string)
    (defaultLayerAttempted : bool) : Eff unit * bool :=
  if truthy_string (hazardLayerIds st) || truthy_string (baselineLayerIds st)
  then (ret tt, defaultLayerAttempted)
  else
    match defaultLayer with
    | None => (ret tt, defaultLayerAttempted)
    | Some name =>
        if String.eqb name "" then (ret tt, defaultLayerAttempted)
        else if negb defaultLayerAttempted && bool_decide (name ∈ layerDefinitionIds)
        then
          match LayerDefinitions !! name with
          | Some defaultLayerInLayerDefinitions =>
              (perform (updateHistory (getUrlKey defaultLayerInLayerDefinitions) name),
               true)
          | None => (throw, true)
          end
        else if negb defaultLayerAttempted then
          (perform
             (addNotification ("Invalid default layer identifier: " +:+ name) error),
           true)
        else (ret tt, defaultLayerAttempted)
    end.

(** What adding the missing layers does for a layer id of the registry: the
    effects of the check of its dates, and then the layer is added, or the
    error of the check is logged. *)
Definition addMissingLayer (st : HookInput) (layerId : string) : list Effect :=
  match LayerDefinitions !! layerId with
  | Some l =>
      let checked :=
        checkLayerAvailableDatesAndContinueOrRemove l (serverAvailableDates st) in
      checked.1
      ++ [match checked.2 with
          | Some message => console_error message
          | None => addLayer l
          end]
  | None => []
  end.

End effects_more.

(** ** The tabs of the left panel *)

(** The two enumerations that the tabs of the left panel import: the
    component names four members of [Panel] and two of [PanelSize]. *)
Class LeftPanelEnums : Type := {
  Panel : Type;
  Panel_eq_dec :: EqDecision Panel;
  Panel_Layers : Panel;
  Panel_Charts : Panel;
  Panel_Analysis : Panel;
  Panel_Tables : Panel;
  PanelSize : Type;
  PanelSize_eq_dec :: EqDecision PanelSize;
  PanelSize_folded : PanelSize;
  PanelSize_medium : PanelSize;
}.

(** What the component reads: its properties, the tab and the analysis result
    of the store ([true] when there is one), and the number of the layers
    with a chart. *)
Record TabsInput `{LeftPanelEnums} : Type := {
  areTablesAvailable : bool;
  panelSize : PanelSize;
  activeLayers : Z;
  tabValue : Panel;
  analysisData : bool;
  wmsLayersWithChart : nat;
}.

Section LeftPanelTabs.
Context `{LeftPanelEnums}.

Definition areChartLayersAvailable (i : TabsInput) : bool :=
  (0 <? wmsLayersWithChart i)%nat.

Definition layersBadgeContent (i : TabsInput) : Z :=
  if negb (analysisData i) then activeLayers i else activeLayers i + 1.

(** The content of the badge of the layers tab, [None] when the label has no
    badge. *)
Definition renderedLayersTabLabel (i : TabsInput) : option Z :=
  if bool_decide (tabValue i ≠ Panel_Layers)
     && bool_decide (panelSize i ≠ PanelSize_folded)
     && (1 <=? layersBadgeContent i)
  then Some (layersBadgeContent i) else None.

(** [nTabs] of the width of a tab, [calc(100% / nTabs)]: lodash's [sum] adds
    the two booleans as numbers. *)
Definition nTabs (i : TabsInput) : Z :=
  2 + (Z.b2z (areChartLayersAvailable i) + Z.b2z (areTablesAvailable i)).

(** The [value] of the charts tab and of the tables tab, [None] for [null]. *)
Definition renderedChartsTab (i : TabsInput) : option Panel :=
  if negb (areChartLayersAvailable i) then None else Some Panel_Charts.

Definition renderedTablesTab (i : TabsInput) : option Panel :=
  if negb (areTablesAvailable i) then None else Some Panel_Tables.

(** The [index] of the charts panel and of the tables panel. *)
Definition renderedChartsPanel (i : TabsInput) : option Panel :=
  if negb (areChartLayersAvailable i) then None else Some Panel_Charts.

Definition renderedTablesPanel (i : TabsInput) : option Panel :=
  if negb (areTablesAvailable i) then None else Some Panel_Tables.

(** The tabs that are rendered, by their [value]: a [null] child renders
    nothing. *)
Definition renderedTabs (i : TabsInput) : list Panel :=
  omap Datatypes.id
    [Some Panel_Layers; renderedChartsTab i; Some Panel_Analysis; renderedTablesTab i].

(** The panels that are rendered, by their [index]. *)
Definition renderedPanels (i : TabsInput) : list Panel :=
  omap Datatypes.id
    [Some Panel_Layers; renderedChartsPanel i; Some Panel_Analysis;
     renderedTablesPanel i].

End LeftPanelTabs.

(** ** Further example inputs *)

(** The address bar has the flood layer and 2 January, before the layer is
    loaded and a date is selected. *)
Definition jan2InUrl : HookInput :=
  {| urlParams := url (Some "flood") None (Some "2024-01-02");
     unsortedSelectedLayers := [];
     serverAvailableDates := floodAndStorm;
     selectedDate := None;
     currentTime := jan3 |}.

(** The address bar has no layer. *)
Definition noLayerInUrl : HookInput :=
  {| urlParams := url None None None;
     unsortedSelectedLayers := [];
     serverAvailableDates := floodAndStorm;
     selectedDate := None;
     currentTime := jan3 |}.

(** The flood layer alone, and the table of the server has no date for it. *)
Definition floodWithoutDates : gmap string (list DateItem) := {[ "flood" := [] ]}.

Definition floodAlone : HookInput :=
  {| urlParams := url (Some "flood") None (Some "2024-01-01");
     unsortedSelectedLayers := [flood];
     serverAvailableDates := floodWithoutDates;
     selectedDate := Some (midday (Day jan1));
     currentTime := jan3 |}.

(** The flood and the storm layers share 2 January, which is selected. *)
Definition jan2Shared : HookInput :=
  {| urlParams := url (Some "flood,storm") None (Some "2024-01-02");
     unsortedSelectedLayers := [flood; storm];
     serverAvailableDates := floodAndStorm;
     selectedDate := Some (midday (Day jan2));
     currentTime := jan3 |}.

(** Midnight UTC of 1 January of the year 10000. *)
Definition year10000 : Z := 253402300800000.

(** The flood layer has dates on 1 and 2 January and on 1 February of the
    year 10000. *)
Definition floodInYear10000 : gmap string (list DateItem) :=
  {[ "flood" := [dateItem year10000; dateItem (year10000 + msPerDay);
                 dateItem (year10000 + 31 * msPerDay)] ]}.

(** An example of the two enumerations, with the members by their names. *)
Definition panelNames : LeftPanelEnums := {|
  Panel := string;
  Panel_Layers := "layers";
  Panel_Charts := "charts";
  Panel_Analysis := "analysis";
  Panel_Tables := "tables";
  PanelSize := string;
  PanelSize_folded := "folded";
  PanelSize_medium := "medium";
|}.

(** The analysis tab is open with an analysis result and two active layers. *)
Definition analysisTabOpen : @TabsInput panelNames :=
  @Build_TabsInput panelNames true "medium" 2 "analysis" true 0.

(** * Properties *)

(** ** The built-ins on examples *)

Example toISOString_2024 : toISOString 1704067200123 = "2024-01-01T00:00:00.123Z".
Proof. vm_compute. reflexivity. Qed.

Example toISOString_before_epoch : toISOString (-1) = "1969-12-31T23:59:59.999Z".
Proof. vm_compute. reflexivity. Qed.

Example toISOString_leap_day : toISOString 951782400000 = "2000-02-29T00:00:00.000Z".
Proof. vm_compute. reflexivity. Qed.

Example parseISODate_leap_day : parseISODate "2024-02-29" = Some 1709164800000.
Proof. vm_compute. reflexivity. Qed.

Example parseISODate_no_such_day : parseISODate "2023-02-29" = None.
Proof. vm_compute. reflexivity. Qed.

(** A year with a sign and a month is read as the first day of the month;
    the first day of April -271821 is before the first valid time value. *)
Example Date_of_string_year_10000 :
  Date_of_string (λ _, None) "+010000-02" = Some 253404979200000
  ∧ Date_of_string (λ _, None) "-271821-04" = None
  ∧ Date_of_string (λ _, None) "-271821-05" = Some (-8639999049600000).
Proof. vm_compute. done. Qed.

Example toISOString_first_valid :
  toISOString (- maxTime) = "-271821-04-20T00:00:00.000Z"
  ∧ toISOString maxTime = "+275760-09-13T00:00:00.000Z".
Proof. vm_compute. done. Qed.

Example setUTCHours_before_epoch : setUTCHours_12_0_0_0 (Some (-1)) = Some (-43200000).
Proof. vm_compute. reflexivity. Qed.

Example split_comma_empty : split_comma "" = [""].
Proof. reflexivity. Qed.

Example split_comma_ids : split_comma "flood,storm," = ["flood"; "storm"; ""].
Proof. reflexivity. Qed.

Example countBy_days :
  countBy ["2024-01-02"; "2024-01-01"; "2024-01-02"]
  = [("2024-01-02", 2%nat); ("2024-01-01", 1%nat)].
Proof. reflexivity. Qed.

(** A layer with an inherited name passes the filter of the date support,
    whatever the table of the server has. *)
Example supportsDates_constructor :
  supportsDates ∅ (mkLayer "constructor" wms) = true
  ∧ supportsDates ∅ (mkLayer "flood" wms) = false.
Proof. vm_compute. done. Qed.

(** With the dates of a layer read from the table of the server, the hook
    throws while it renders when a selected layer has an inherited name. *)
Example selectedLayersWithDateSupport_constructor :
  @selectedLayersWithDateSupport prism
     {| urlParams := url (Some "constructor") None None;
        unsortedSelectedLayers := [mkLayer "constructor" wms];
        serverAvailableDates := floodAndStorm;
        selectedDate := None;
        currentTime := jan3 |}
  = None.
Proof. vm_compute. reflexivity. Qed.

(** The sort is stable: layers of the same priority keep their order. *)
Example sort_stable :
  sort priorityOrdering [flood; shelters; storm] = [shelters; flood; storm].
Proof. reflexivity. Qed.

(** ** The calendar *)

(** Names the parts of [civil_from_days z] and bounds each of them. *)
Ltac calendar z :=
  unfold civil_from_days;
  let z' := fresh "z'" in let era := fresh "era" in let doe := fresh "doe" in
  let c := fresh "c" in let doc := fresh "doc" in let q := fresh "q" in
  let doq := fresh "doq" in let r := fresh "r" in let doy := fresh "doy" in
  let mp := fresh "mp" in
  set (z' := z + 719468);
  set (era := z' / 146097); set (doe := z' mod 146097);
  assert (0 <= doe < 146097) by (apply Z.mod_pos_bound; lia);
  assert (z' = 146097 * era + doe) by (apply Z.div_mod; lia);
  set (c := Z.min (doe / 36524) 3);
  assert (0 <= c <= 3 ∧ 36524 * c <= doe ∧ (c < 3 → doe < 36524 * c + 36524))
    by (unfold c; Z.div_mod_to_equations; lia);
  set (doc := doe - 36524 * c);
  set (q := doc / 1461);
  assert (0 <= q <= 24 ∧ 1461 * q <= doc < 1461 * q + 1461)
    by (unfold q, doc; Z.div_mod_to_equations; lia);
  set (doq := doc - 1461 * q);
  set (r := Z.min (doq / 365) 3);
  assert (0 <= r <= 3 ∧ 365 * r <= doq ∧ (r < 3 → doq < 365 * r + 365))
    by (unfold r, doq; Z.div_mod_to_equations; lia);
  set (doy := doq - 365 * r);
  assert (0 <= doy <= 365) by (unfold doy, doq, doc in *; lia);
  set (mp := (5 * doy + 2) / 153);
  assert (0 <= mp <= 11 ∧ 153 * mp <= 5 * doy + 2 < 153 * mp + 153)
    by (unfold mp; Z.div_mod_to_equations; lia).

(** [days_from_civil] undoes [civil_from_days]. *)
Lemma days_from_civil_from_days z y m d :
  civil_from_days z = (y, m, d) → days_from_civil y m d = z.
Proof.
  calendar z. intros [= <- <- <-]. unfold days_from_civil.
  set (yoe := 100 * c + 4 * q + r).
  assert (Hyoe : 0 <= yoe < 400 ∧ yoe / 4 = 25 * c + q ∧ yoe / 100 = c)
    by (unfold yoe; Z.div_mod_to_equations; lia).
  destruct (Z.ltb_spec mp 10).
  - replace (mp + 3 <=? 2) with false by (symmetry; apply Z.leb_gt; lia).
    replace (400 * era + 100 * c + 4 * q + r + 0) with (400 * era + yoe)
      by (unfold yoe; lia).
    replace ((400 * era + yoe) / 400) with era by (Z.div_mod_to_equations; lia).
    replace ((400 * era + yoe) mod 400) with yoe by (Z.div_mod_to_equations; lia).
    replace (mp + 3 - 3) with mp by lia.
    destruct Hyoe as (_ & -> & ->). unfold yoe, doy, doq, doc, z' in *. lia.
  - replace (mp - 9 <=? 2) with true by (symmetry; apply Z.leb_le; lia).
    replace (400 * era + 100 * c + 4 * q + r + 1 - 1) with (400 * era + yoe)
      by (unfold yoe; lia).
    replace ((400 * era + yoe) / 400) with era by (Z.div_mod_to_equations; lia).
    replace ((400 * era + yoe) mod 400) with yoe by (Z.div_mod_to_equations; lia).
    replace (mp - 9 + 9) with mp by lia.
    destruct Hyoe as (_ & -> & ->). unfold yoe, doy, doq, doc, z' in *. lia.
Qed.

Lemma civil_from_days_bounds z y m d :
  civil_from_days z = (y, m, d) → 1 <= m <= 12 ∧ 1 <= d <= 31.
Proof.
  calendar z. intros [= <- <- <-].
  destruct (Z.ltb_spec mp 10); Z.div_mod_to_equations; lia.
Qed.

(** The days of the years 0000 to 9999. *)
Lemma civil_from_days_year z y m d :
  civil_from_days z = (y, m, d) → -719528 <= z <= 2932896 → 0 <= y <= 9999.
Proof.
  calendar z. intros [= <- <- <-] Hz.
  destruct (Z.ltb_spec mp 10); destruct (Z.leb_spec (mp + 3) 2);
    destruct (Z.leb_spec (mp - 9) 2); unfold doy, doq, doc, z' in *; lia.
Qed.

Lemma fourDigitYear_Day t : fourDigitYear t → -719528 <= Day t <= 2932896.
Proof. unfold fourDigitYear, Day, msPerDay. intros. Z.div_mod_to_equations. lia. Qed.

Lemma Day_midnight d : Day (d * msPerDay) = d.
Proof. unfold Day, msPerDay. apply Z.div_mul. lia. Qed.

Lemma Day_midday d : Day (midday d) = d.
Proof. unfold Day, midday, msPerDay, msPerHour. Z.div_mod_to_equations. lia. Qed.

Lemma TimeWithinDay_midday d : TimeWithinDay (midday d) = 12 * msPerHour.
Proof.
  unfold TimeWithinDay, midday, msPerDay, msPerHour. Z.div_mod_to_equations. lia.
Qed.

Lemma midday_inj d1 d2 : midday d1 = midday d2 → d1 = d2.
Proof. unfold midday, msPerDay. lia. Qed.

(** ** Digits and day strings *)

Lemma digit_value_digit n : 0 <= n <= 9 → digit_value (digit n) = Some n.
Proof.
  intros Hn.
  assert (Hc : n = 0 ∨ n = 1 ∨ n = 2 ∨ n = 3 ∨ n = 4 ∨ n = 5 ∨ n = 6 ∨ n = 7
               ∨ n = 8 ∨ n = 9) by lia.
  repeat (destruct Hc as [-> | Hc]; [reflexivity |]). by subst.
Qed.

Lemma digits_value_pad2 n :
  0 <= n <= 99 →
  ∃ a b, pad 2 n = String a (String b "")
         ∧ digits_value 0 [a; b] = Some n.
Proof.
  intros Hn. eexists _, _. split; [reflexivity |]. cbn [digits_value].
  rewrite !digit_value_digit by (Z.div_mod_to_equations; lia).
  f_equal. Z.div_mod_to_equations. lia.
Qed.

Lemma digits_value_pad4 n :
  0 <= n <= 9999 →
  ∃ a b c d, pad 4 n = String a (String b (String c (String d "")))
             ∧ digits_value 0 [a; b; c; d] = Some n.
Proof.
  intros Hn. eexists _, _, _, _. split; [reflexivity |]. cbn [digits_value].
  rewrite !digit_value_digit by (Z.div_mod_to_equations; lia).
  f_equal. Z.div_mod_to_equations. lia.
Qed.

(** In the years 0000 to 9999 the first ten characters of [toISOString] are
    the day, and they depend on the day alone. *)
Lemma slice_toISOString t y m d :
  fourDigitYear t → civil_from_days (Day t) = (y, m, d) →
  slice_0_10 (toISOString t) = pad 4 y +:+ "-" +:+ pad 2 m +:+ "-" +:+ pad 2 d.
Proof.
  intros Ht Hc. unfold toISOString. rewrite Hc.
  pose proof (civil_from_days_year _ _ _ _ Hc (fourDigitYear_Day _ Ht)) as Hy.
  pose proof (civil_from_days_bounds _ _ _ _ Hc) as [Hm Hd].
  unfold yearString.
  replace ((0 <=? y) && (y <=? 9999)) with true by (symmetry; apply andb_true_iff; lia).
  destruct (digits_value_pad4 y) as (y1 & y2 & y3 & y4 & -> & _); [lia |].
  destruct (digits_value_pad2 m) as (m1 & m2 & -> & _); [lia |].
  destruct (digits_value_pad2 d) as (d1 & d2 & -> & _); [lia |].
  reflexivity.
Qed.

(** Reading the day string back gives midnight of the day. *)
Lemma parseISODate_slice_toISOString t :
  fourDigitYear t →
  parseISODate (slice_0_10 (toISOString t)) = Some (Day t * msPerDay).
Proof.
  intros Ht. destruct (civil_from_days (Day t)) as [[y m] d] eqn:Hc.
  rewrite (slice_toISOString t y m d Ht Hc).
  pose proof (civil_from_days_year _ _ _ _ Hc (fourDigitYear_Day _ Ht)) as Hy.
  pose proof (civil_from_days_bounds _ _ _ _ Hc) as [Hm Hd].
  destruct (digits_value_pad4 y) as (y1 & y2 & y3 & y4 & -> & Ey); [lia |].
  destruct (digits_value_pad2 m) as (m1 & m2 & -> & Em); [lia |].
  destruct (digits_value_pad2 d) as (d1 & d2 & -> & Ed); [lia |].
  unfold parseISODate.
  simpl String.append. simpl String.list_ascii_of_string. cbv beta iota.
  rewrite Ascii.eqb_refl. cbn [andb].
  rewrite Ey, Em, Ed. cbn [mbind option_bind].
  rewrite (days_from_civil_from_days _ _ _ _ Hc).
  rewrite bool_decide_eq_true_2 by done. reflexivity.
Qed.

Lemma dayString_Day a b :
  fourDigitYear (displayDate a) → fourDigitYear (displayDate b) →
  dayString a = dayString b ↔ Day (displayDate a) = Day (displayDate b).
Proof.
  intros Ha Hb. unfold dayString. split.
  - intros E.
    pose proof (parseISODate_slice_toISOString _ Ha) as Pa.
    pose proof (parseISODate_slice_toISOString _ Hb) as Pb.
    rewrite E, Pb in Pa. unfold msPerDay in Pa. injection Pa. lia.
  - intros E.
    destruct (civil_from_days (Day (displayDate a))) as [[y m] d] eqn:Hc.
    rewrite (slice_toISOString _ y m d Ha Hc).
    rewrite E in Hc. by rewrite (slice_toISOString _ y m d Hb Hc).
Qed.

(** ** Day strings with an expanded year *)

(** The days of the valid time values. *)
Lemma validTime_Day t : validTime t → -100000000 <= Day t <= 100000000.
Proof. unfold validTime, maxTime, Day, msPerDay. intros. Z.div_mod_to_equations. lia. Qed.

Lemma fourDigitYear_validTime t : fourDigitYear t → validTime t.
Proof. unfold fourDigitYear, validTime, maxTime. lia. Qed.

(** Outside of the days of the years 0000 to 9999 the year has a sign. *)
Lemma civil_from_days_year_outside z y m d :
  civil_from_days z = (y, m, d) → ¬ (-719528 <= z <= 2932896) → ¬ (0 <= y <= 9999).
Proof.
  calendar z. intros [= <- <- <-] Hz.
  destruct (Z.ltb_spec mp 10); destruct (Z.leb_spec (mp + 3) 2);
    destruct (Z.leb_spec (mp - 9) 2); unfold doy, doq, doc, z' in *; lia.
Qed.

(** The years of the valid time values have six digits at most. *)
Lemma civil_from_days_year_valid z y m d :
  civil_from_days z = (y, m, d) → -100000000 <= z <= 100000000 →
  -271821 <= y <= 275760.
Proof.
  calendar z. intros [= <- <- <-] Hz.
  destruct (Z.ltb_spec mp 10); destruct (Z.leb_spec (mp + 3) 2);
    destruct (Z.leb_spec (mp - 9) 2); unfold doy, doq, doc, z' in *; lia.
Qed.

Lemma days_from_civil_day y m d :
  days_from_civil y m d = days_from_civil y m 1 + (d - 1).
Proof. unfold days_from_civil. lia. Qed.

(** Digits of an expanded year. *)
Lemma digits_value_pad6 n :
  0 <= n <= 999999 →
  ∃ a b c d e f,
    pad 6 n = String a (String b (String c (String d (String e (String f "")))))
    ∧ digits_value 0 [a; b; c; d; e; f] = Some n.
Proof.
  intros Hn. eexists _, _, _, _, _, _. split; [reflexivity |]. cbn [digits_value].
  rewrite !digit_value_digit by (Z.div_mod_to_equations; lia).
  f_equal. Z.div_mod_to_equations. lia.
Qed.

Lemma fourDigitYear_of_Day t : -719528 <= Day t <= 2932896 → fourDigitYear t.
Proof. unfold fourDigitYear, Day, msPerDay. intros. Z.div_mod_to_equations. lia. Qed.

(** [civil_from_days] undoes [days_from_civil] on the first day of a month. *)
Lemma civil_from_days_first y m :
  1 <= m <= 12 → civil_from_days (days_from_civil y m 1) = (y, m, 1).
Proof.
  intros Hm. unfold days_from_civil.
  set (y' := if m <=? 2 then y - 1 else y).
  set (mp := if m <=? 2 then m + 9 else m - 3).
  assert (Hmp : 0 <= mp <= 11) by (unfold mp; destruct (Z.leb_spec m 2); lia).
  set (era := y' / 400). set (yoe := y' mod 400).
  assert (Hyoe : 0 <= yoe < 400) by (apply Z.mod_pos_bound; lia).
  assert (Hy' : y' = 400 * era + yoe) by (apply Z.div_mod; lia).
  set (c := yoe / 100).
  assert (Hc : 0 <= c <= 3 ∧ 100 * c <= yoe < 100 * c + 100)
    by (unfold c; Z.div_mod_to_equations; lia).
  set (yoc := yoe - 100 * c).
  set (q := yoc / 4).
  assert (Hq : 0 <= q <= 24 ∧ 4 * q <= yoc < 4 * q + 4)
    by (unfold q, yoc; Z.div_mod_to_equations; lia).
  set (r := yoc - 4 * q).
  assert (Hyoe4 : yoe / 4 = 25 * c + q) by (unfold yoc in *; Z.div_mod_to_equations; lia).
  rewrite Hyoe4. fold c.
  set (doy := (153 * mp + 2) / 5).
  assert (Hdoy : 0 <= doy <= 337 ∧ 5 * doy <= 153 * mp + 2 < 5 * doy + 5)
    by (unfold doy; Z.div_mod_to_equations; lia).
  replace (146097 * era + (365 * yoe + (25 * c + q) - c + (doy + 1 - 1)) - 719468)
    with (146097 * era + (36524 * c + 1461 * q + 365 * r + doy) - 719468)
    by (unfold r, yoc; lia).
  unfold civil_from_days.
  replace (146097 * era + (36524 * c + 1461 * q + 365 * r + doy) - 719468 + 719468)
    with (146097 * era + (36524 * c + 1461 * q + 365 * r + doy)) by lia.
  set (doe := 36524 * c + 1461 * q + 365 * r + doy).
  assert (Hr : 0 <= r <= 3) by (unfold r; lia).
  assert (Hdoe : 0 <= doe < 146097) by (unfold doe; lia).
  replace ((146097 * era + doe) / 146097) with era by (Z.div_mod_to_equations; lia).
  replace ((146097 * era + doe) mod 146097) with doe by (Z.div_mod_to_equations; lia).
  replace (Z.min (doe / 36524) 3) with c by (unfold doe; Z.div_mod_to_equations; lia).
  replace (doe - 36524 * c) with (1461 * q + 365 * r + doy) by (unfold doe; lia).
  replace ((1461 * q + 365 * r + doy) / 1461) with q by (Z.div_mod_to_equations; lia).
  replace (1461 * q + 365 * r + doy - 1461 * q) with (365 * r + doy) by lia.
  replace (Z.min ((365 * r + doy) / 365) 3) with r by (Z.div_mod_to_equations; lia).
  replace (365 * r + doy - 365 * r) with doy by lia.
  replace ((5 * doy + 2) / 153) with mp by (Z.div_mod_to_equations; lia).
  fold doy.
  replace (doy - doy + 1) with 1 by lia.
  assert (Em : (if mp <? 10 then mp + 3 else mp - 9) = m)
    by (unfold mp; destruct (Z.leb_spec m 2); destruct (Z.ltb_spec (m + 9) 10);
        destruct (Z.ltb_spec (m - 3) 10); lia).
  rewrite Em. f_equal. f_equal.
  unfold y' in Hy'. destruct (Z.leb_spec m 2); unfold r, yoc; lia.
Qed.

(** The one month whose first day is before the first valid time value:
    April of the year -271821. *)
Lemma civil_from_days_first_valid z y m d :
  civil_from_days z = (y, m, d) → -100000000 <= z → z - (d - 1) < -100000000 →
  y = -271821 ∧ m = 4.
Proof.
  intros Hc Hz Hf.
  pose proof (civil_from_days_bounds _ _ _ _ Hc) as [_ Hd].
  assert (Hk : ∃ k : nat, (k < 30)%nat ∧ z = -100000000 + Z.of_nat k)
    by (exists (Z.to_nat (z + 100000000)); lia).
  destruct Hk as (k & Hk & ->).
  do 30 (destruct k as [| k];
         [vm_compute in Hc; injection Hc as <- <- <-; first [done | lia] |]).
  lia.
Qed.

(** Outside of the years 0000 to 9999 the first ten characters of
    [toISOString] are the sign, the year and the month. *)
Lemma slice_toISOString_expanded t y m d :
  civil_from_days (Day t) = (y, m, d) →
  ¬ (0 <= y <= 9999) → -999999 <= y <= 999999 →
  slice_0_10 (toISOString t)
  = (if 0 <=? y then "+" else "-") +:+ pad 6 (Z.abs y) +:+ "-" +:+ pad 2 m.
Proof.
  intros Hc Hy Hy6. unfold toISOString. rewrite Hc.
  pose proof (civil_from_days_bounds _ _ _ _ Hc) as [Hm Hd].
  unfold yearString.
  replace ((0 <=? y) && (y <=? 9999)) with false
    by (symmetry; apply andb_false_iff; rewrite Z.leb_gt, Z.leb_gt; lia).
  destruct (digits_value_pad6 (Z.abs y)) as (y1 & y2 & y3 & y4 & y5 & y6 & -> & _); [lia |].
  destruct (digits_value_pad2 m) as (m1 & m2 & -> & _); [lia |].
  destruct (digits_value_pad2 d) as (d1 & d2 & -> & _); [lia |].
  by destruct (0 <=? y).
Qed.

(** A string of digits does not start with a dash. *)
Lemma digits_value_Some acc c s n :
  digits_value acc (c :: s) = Some n → Ascii.eqb c "-" = false.
Proof.
  cbn [digits_value]. destruct (Ascii.eqb_spec c "-") as [-> |]; [| done].
  by vm_compute (digit_value _).
Qed.

(** Reading a year with a sign and a month gives midnight of the first day of
    the month, when that is a valid time value. *)
Lemma parse_expanded legacy y m :
  ¬ (0 <= y <= 9999) → -999999 <= y <= 999999 → 1 <= m <= 12 →
  Date_of_string legacy
    ((if 0 <=? y then "+" else "-") +:+ pad 6 (Z.abs y) +:+ "-" +:+ pad 2 m)
  = TimeClip (days_from_civil y m 1 * msPerDay).
Proof.
  intros Hy Hy6 Hm.
  destruct (digits_value_pad6 (Z.abs y)) as (y1 & y2 & y3 & y4 & y5 & y6 & -> & Ey); [lia |].
  destruct (digits_value_pad2 m) as (m1 & m2 & -> & Em); [lia |].
  assert (Hy4 : Ascii.eqb y4 "-" = false).
  { cbn [digits_value] in Ey.
    destruct (digit_value y1); [| done]. destruct (digit_value y2); [| done].
    destruct (digit_value y3); [| done]. cbn beta in Ey.
    eapply (digits_value_Some _ y4 [y5; y6]). exact Ey. }
  unfold Date_of_string.
  assert (Hiso : ∀ sign, parseISODate (String sign (String y1 (String y2 (String y3
                   (String y4 (String y5 (String y6 (String "-" (String m1 (String m2 ""))))))))))
                 = None).
  { intros sign. unfold parseISODate. simpl String.list_ascii_of_string. cbv beta iota.
    by rewrite Hy4. }
  destruct (Z.leb_spec 0 y) as [Hpos | Hneg].
  - match goal with |- context [parseISODate ?s] =>
      let s' := eval cbv [String.append] in s in change s with s' end.
    rewrite Hiso. unfold parseExpandedYearMonth.
    simpl String.list_ascii_of_string. cbv beta iota.
    replace (Ascii.eqb "+" "+") with true by reflexivity.
    replace (Ascii.eqb "+" "-") with false by reflexivity.
    rewrite Ascii.eqb_refl. cbn [andb orb].
    rewrite Ey, Em. cbn [mbind option_bind negb andb].
    replace ((1 <=? m) && (m <=? 12)) with true
      by (symmetry; apply andb_true_iff; rewrite !Z.leb_le; lia).
    cbn [andb mbind option_bind]. by replace (Z.abs y) with y by lia.
  - match goal with |- context [parseISODate ?s] =>
      let s' := eval cbv [String.append] in s in change s with s' end.
    rewrite Hiso. unfold parseExpandedYearMonth.
    simpl String.list_ascii_of_string. cbv beta iota.
    replace (Ascii.eqb "-" "+") with false by reflexivity.
    rewrite Ascii.eqb_refl. cbn [andb orb].
    rewrite Ey, Em. cbn [mbind option_bind negb andb].
    replace ((1 <=? m) && (m <=? 12)) with true
      by (symmetry; apply andb_true_iff; rewrite !Z.leb_le; lia).
    replace (Z.abs y =? 0) with false by (symmetry; apply Z.eqb_neq; lia).
    cbn [andb negb mbind option_bind]. by replace (- Z.abs y) with y by lia.
Qed.

(** ** Counting with [countBy] and [pickBy] *)

Lemma occurrences_cons key k a :
  occurrences key (k :: a)
  = ((if decide (k = key) then 1 else 0) + occurrences key a)%nat.
Proof. unfold occurrences. rewrite filter_cons. by destruct (decide (k = key)). Qed.

Lemma occurrences_app key a b :
  occurrences key (a ++ b) = (occurrences key a + occurrences key b)%nat.
Proof. unfold occurrences. by rewrite filter_app, length_app. Qed.

Lemma occurrences_pos key a : (1 ≤ occurrences key a)%nat ↔ key ∈ a.
Proof.
  induction a as [| k a IH]; rewrite ?occurrences_cons.
  - unfold occurrences. simpl. split; [lia | by intros ?%elem_of_nil].
  - rewrite elem_of_cons, <- IH. destruct (decide (k = key)) as [-> |].
    + split; [by left | lia].
    + split; [right; lia | intros [-> | ?]; [done | lia]].
Qed.

Lemma occurrences_NoDup key a : NoDup a → (occurrences key a ≤ 1)%nat.
Proof.
  induction 1 as [| k a Hk _ IH]; [unfold occurrences; simpl; lia |].
  rewrite occurrences_cons. destruct (decide (k = key)) as [-> |]; [| lia].
  assert (¬ (1 ≤ occurrences key a)%nat) by (by rewrite occurrences_pos). lia.
Qed.

Lemma Obj_get_increment key k (o : Obj nat) :
  Obj_get k (increment key o)
  = if decide (key = k) then Some (S (default 0%nat (Obj_get k o)))
    else Obj_get k o.
Proof.
  induction o as [| [k' n] o IH]; simpl.
  - destruct (String.eqb_spec key k); by destruct (decide (key = k)).
  - destruct (String.eqb_spec k' key) as [-> |]; simpl.
    + destruct (String.eqb_spec key k); by destruct (decide (key = k)).
    + destruct (String.eqb_spec k' k) as [-> |]; [by destruct (decide (key = k)) |].
      apply IH.
Qed.

Lemma Object_keys_increment key (o : Obj nat) :
  Object_keys (increment key o)
  = if decide (key ∈ Object_keys o) then Object_keys o else Object_keys o ++ [key].
Proof.
  unfold Object_keys. induction o as [| [k n] o IH]; [done |].
  cbn [increment]. destruct (String.eqb_spec k key) as [-> |]; rewrite !fmap_cons.
  - by rewrite decide_True by left.
  - rewrite IH. cbn [fst]. destruct (decide (key ∈ o.*1)).
    + by rewrite decide_True by (by right).
    + rewrite decide_False; [done |]. by intros [? | ?]%elem_of_cons.
Qed.

Lemma Obj_get_Some {V} key (v : V) (o : Obj V) :
  NoDup (Object_keys o) → (key, v) ∈ o ↔ Obj_get key o = Some v.
Proof.
  unfold Object_keys. induction o as [| [k n] o IH]; simpl; intros Hnd.
  - split; [by intros ?%elem_of_nil | done].
  - apply NoDup_cons in Hnd as [Hk Hnd]. rewrite elem_of_cons.
    destruct (String.eqb_spec k key) as [-> |].
    + split; [| intros [= ->]; by left]. intros [[= ->] | Hin]; [done |].
      destruct Hk. apply list_elem_of_fmap. by exists (key, v).
    + rewrite <- (IH Hnd). split; [by intros [[= ? ?] | ?] | by right].
Qed.

(** The object of [countBy]: its keys are the distinct strings of the
    collection, each with its number of occurrences. *)
Lemma countBy_spec (a : list string) :
  NoDup (Object_keys (countBy a))
  ∧ ∀ key, Obj_get key (countBy a)
           = if decide (key ∈ a) then Some (occurrences key a) else None.
Proof.
  unfold countBy. induction a as [| k a IH] using rev_ind.
  - split; [constructor |]. intros key. by rewrite decide_False by apply not_elem_of_nil.
  - rewrite foldl_app. cbn [foldl]. destruct IH as [Hnd Hget]. split.
    + rewrite Object_keys_increment. destruct (decide _) as [| Hk]; [done |].
      apply NoDup_app. split_and!; [done | | apply NoDup_singleton].
      by intros x Hx ->%list_elem_of_singleton.
    + intros key. rewrite Obj_get_increment, Hget, occurrences_app.
      rewrite (occurrences_cons key k []).
      change (occurrences key []) with 0%nat.
      destruct (decide (k = key)) as [-> |].
      * rewrite (decide_True (P := key ∈ a ++ [key])) by (apply elem_of_app; right; by left).
        destruct (decide (key ∈ a)) as [| Hn]; simpl; [f_equal; lia |].
        assert (¬ (1 ≤ occurrences key a)%nat) by (by rewrite occurrences_pos).
        f_equal. lia.
      * destruct (decide (key ∈ a)).
        -- rewrite decide_True by (apply elem_of_app; by left). f_equal. lia.
        -- rewrite decide_False; [done |].
           intros [? | ?%list_elem_of_singleton]%elem_of_app; done.
Qed.

Lemma NoDup_Object_keys_pickBy {V} (o : Obj V) predicate :
  NoDup (Object_keys o) → NoDup (Object_keys (pickBy o predicate)).
Proof.
  unfold Object_keys, pickBy. intros Hnd.
  eapply sublist_NoDup; [exact Hnd |]. apply fmap_sublist, sublist_filter.
Qed.

(** The keys that [pickBy] keeps of a [countBy]: the strings that occur at
    least [n] times. *)
Lemma Object_keys_pickBy_countBy (a : list string) (n : nat) key :
  key ∈ Object_keys (pickBy (countBy a) (λ dupTimes, (n <=? dupTimes)%nat))
  ↔ key ∈ a ∧ (n ≤ occurrences key a)%nat.
Proof.
  destruct (countBy_spec a) as [Hnd Hget].
  unfold Object_keys, pickBy. rewrite list_elem_of_fmap. split.
  - intros ([k v] & -> & [Hp Hin]%list_elem_of_filter). simpl in *.
    apply (Obj_get_Some _ _ _ Hnd) in Hin. rewrite Hget in Hin.
    destruct (decide (k ∈ a)); [| done]. injection Hin as <-.
    split; [done |]. by apply Nat.leb_le.
  - intros [Hin Hn]. exists (key, occurrences key a). split; [done |].
    apply list_elem_of_filter. split; [by apply Nat.leb_le |].
    apply (Obj_get_Some _ _ _ Hnd). rewrite Hget. by rewrite decide_True.
Qed.

(** ** The selectable dates *)

Section selectable.
Context `{Collaborators}.
Implicit Types (layers : list LayerWithDateItems) (l : LayerWithDateItems).
Implicit Types (available : gmap string (list DateItem)).

(** A day string of the years 0000 to 9999 comes back as midday of its day. *)
Lemma selectable_of_dayString legacy item :
  fourDigitYear (displayDate item) →
  setUTCHours_12_0_0_0 (Date_of_string legacy (dayString item))
  = Some (midday (Day (displayDate item))).
Proof.
  intros Ht. unfold Date_of_string, dayString.
  rewrite (parseISODate_slice_toISOString _ Ht). cbn [mbind option_bind].
  pose proof (fourDigitYear_Day _ Ht) as Hd.
  unfold TimeClip.
  replace (Z.abs _ <=? maxTime) with true
    by (symmetry; apply Z.leb_le; unfold maxTime, msPerDay; lia).
  unfold setUTCHours_12_0_0_0. cbn [mbind option_bind]. rewrite Day_midnight.
  unfold TimeClip.
  replace (Z.abs _ <=? maxTime) with true
    by (symmetry; apply Z.leb_le; unfold maxTime, midday, msPerDay, msPerHour; lia).
  done.
Qed.

(** A day string with an expanded year comes back as midday of the first day
    of its month, or as [NaN] when that day is before the first valid time
    value. *)
Lemma selectable_of_dayString_expanded legacy item y m d :
  validTime (displayDate item) → ¬ fourDigitYear (displayDate item) →
  civil_from_days (Day (displayDate item)) = (y, m, d) →
  ¬ (0 <= y <= 9999)
  ∧ dayString item
    = (if 0 <=? y then "+" else "-") +:+ pad 6 (Z.abs y) +:+ "-" +:+ pad 2 m
  ∧ setUTCHours_12_0_0_0 (Date_of_string legacy (dayString item))
    = if -100000000 <=? days_from_civil y m 1
      then Some (midday (days_from_civil y m 1)) else None.
Proof.
  intros Hvalid Hyear Hc.
  pose proof (validTime_Day _ Hvalid) as Hday.
  pose proof (civil_from_days_bounds _ _ _ _ Hc) as [Hm Hd].
  pose proof (civil_from_days_year_valid _ _ _ _ Hc Hday) as Hy6.
  assert (Hy : ¬ (0 <= y <= 9999)).
  { apply (civil_from_days_year_outside _ _ _ _ Hc). intros Hrange.
    by apply Hyear, fourDigitYear_of_Day. }
  assert (Hs : dayString item
               = (if 0 <=? y then "+" else "-") +:+ pad 6 (Z.abs y) +:+ "-" +:+ pad 2 m)
    by (apply (slice_toISOString_expanded _ _ _ _ Hc Hy); lia).
  split_and!; [done | done |]. rewrite Hs, parse_expanded by (done || lia).
  pose proof (days_from_civil_from_days _ _ _ _ Hc) as Hz.
  rewrite days_from_civil_day in Hz.
  set (f := days_from_civil y m 1) in *.
  assert (Hlast : f ≠ 100000000).
  { intros Hf. assert (Day (displayDate item) = 100000000 ∧ d = 1) as [Hz' ->] by lia.
    rewrite Hz' in Hc. vm_compute in Hc. by injection Hc. }
  unfold setUTCHours_12_0_0_0, TimeClip.
  destruct (Z.leb_spec (-100000000) f) as [Hf | Hf].
  - replace (Z.abs (f * msPerDay) <=? maxTime) with true
      by (symmetry; apply Z.leb_le; unfold maxTime, msPerDay; lia).
    cbn [mbind option_bind]. rewrite Day_midnight.
    by replace (Z.abs (midday f) <=? maxTime) with true
      by (symmetry; apply Z.leb_le; unfold maxTime, midday, msPerDay, msPerHour; lia).
  - by replace (Z.abs (f * msPerDay) <=? maxTime) with false
      by (symmetry; apply Z.leb_gt; unfold maxTime, msPerDay; lia).
Qed.

(** Two day strings of valid time values that come back as the same time
    value are the same string. *)
Lemma selectable_inj legacy a b :
  validTime (displayDate a) → validTime (displayDate b) →
  setUTCHours_12_0_0_0 (Date_of_string legacy (dayString a))
  = setUTCHours_12_0_0_0 (Date_of_string legacy (dayString b)) →
  dayString a = dayString b.
Proof.
  intros Ha Hb.
  destruct (civil_from_days (Day (displayDate a))) as [[ya ma] da] eqn:Hca.
  destruct (civil_from_days (Day (displayDate b))) as [[yb mb] db] eqn:Hcb.
  pose proof (civil_from_days_bounds _ _ _ _ Hca) as [Hma Hda].
  pose proof (civil_from_days_bounds _ _ _ _ Hcb) as [Hmb Hdb].
  pose proof (days_from_civil_from_days _ _ _ _ Hca) as Hza.
  pose proof (days_from_civil_from_days _ _ _ _ Hcb) as Hzb.
  rewrite days_from_civil_day in Hza, Hzb.
  pose proof (validTime_Day _ Ha) as Hdaya. pose proof (validTime_Day _ Hb) as Hdayb.
  destruct (decide (-719528 <= Day (displayDate a) <= 2932896)) as [Hya | Hya];
    destruct (decide (-719528 <= Day (displayDate b) <= 2932896)) as [Hyb | Hyb].
  - pose proof (fourDigitYear_of_Day _ Hya). pose proof (fourDigitYear_of_Day _ Hyb).
    rewrite !selectable_of_dayString by done.
    intros [= Hd%midday_inj]. by apply dayString_Day.
  - pose proof (fourDigitYear_of_Day _ Hya) as Hfa.
    assert (Hfb : ¬ fourDigitYear (displayDate b)) by (by intros ?%fourDigitYear_Day).
    destruct (selectable_of_dayString_expanded legacy b _ _ _ Hb Hfb Hcb) as (Hy & _ & ->).
    rewrite selectable_of_dayString by done.
    destruct (_ <=? _); [| done]. intros [= Hd%midday_inj]. exfalso. apply Hy.
    rewrite Hd in Hya. pose proof (civil_from_days_first yb mb Hmb) as Hfirst.
    by eapply civil_from_days_year.
  - pose proof (fourDigitYear_of_Day _ Hyb) as Hfb.
    assert (Hfa : ¬ fourDigitYear (displayDate a)) by (by intros ?%fourDigitYear_Day).
    destruct (selectable_of_dayString_expanded legacy a _ _ _ Ha Hfa Hca) as (Hy & _ & ->).
    rewrite (selectable_of_dayString legacy b) by done.
    destruct (_ <=? _); [| done]. intros [= Hd%midday_inj]. exfalso. apply Hy.
    rewrite <- Hd in Hyb. pose proof (civil_from_days_first ya ma Hma) as Hfirst.
    by eapply civil_from_days_year.
  - assert (Hfa : ¬ fourDigitYear (displayDate a)) by (by intros ?%fourDigitYear_Day).
    assert (Hfb : ¬ fourDigitYear (displayDate b)) by (by intros ?%fourDigitYear_Day).
    destruct (selectable_of_dayString_expanded legacy a _ _ _ Ha Hfa Hca) as (_ & -> & ->).
    destruct (selectable_of_dayString_expanded legacy b _ _ _ Hb Hfb Hcb) as (_ & -> & ->).
    destruct (Z.leb_spec (-100000000) (days_from_civil ya ma 1)) as [Hfa' | Hfa'];
      destruct (Z.leb_spec (-100000000) (days_from_civil yb mb 1)) as [Hfb' | Hfb'];
      try done.
    + intros [= Hd%midday_inj].
      pose proof (civil_from_days_first ya ma Hma) as Ea.
      rewrite Hd, (civil_from_days_first yb mb Hmb) in Ea. by injection Ea as -> ->.
    + intros _.
      destruct (civil_from_days_first_valid _ _ _ _ Hca) as [-> ->]; [lia | lia |].
      by destruct (civil_from_days_first_valid _ _ _ _ Hcb) as [-> ->]; [lia | lia |].
Qed.

(** The null check and [flat] leave the date items of the layers, in order. *)
Lemma flat_possibleDates layers available :
  concat (omap (λ l, getPossibleDatesForLayer (layer l) available) layers)
  = concat (possibleDates available <$> layers).
Proof.
  induction layers as [| l layers IH]; [done |].
  cbn [omap list_omap fmap list_fmap concat]. unfold possibleDates at 1.
  destruct (getPossibleDatesForLayer (layer l) available); cbn [default concat];
    by rewrite IH.
Qed.

Lemma elem_of_concat_possibleDates layers available item :
  item ∈ concat (possibleDates available <$> layers)
  ↔ ∃ l, l ∈ layers ∧ item ∈ possibleDates available l.
Proof.
  induction layers as [| l layers IH]; cbn [fmap list_fmap concat].
  - split; [by intros ?%elem_of_nil | by intros (? & ?%elem_of_nil & _)].
  - rewrite elem_of_app, IH. split.
    + intros [? | (l' & ? & ?)]; [exists l | exists l']; split; try done;
        [by left | by right].
    + intros (l' & [-> | ?]%elem_of_cons & ?); [by left | right; by exists l'].
Qed.

(** The count of a day is the sum of its counts in the layers. *)
Lemma occurrences_concat_possibleDates layers available key :
  occurrences key (dayString <$> concat (possibleDates available <$> layers))
  = sum_list
      ((λ l, occurrences key (dayString <$> possibleDates available l)) <$> layers).
Proof.
  induction layers as [| l layers IH]; [done |].
  cbn [fmap list_fmap concat sum_list sum_list_with Datatypes.id].
  change (list_fmap ?A ?B ?f ?x) with (f <$> x).
  by rewrite fmap_app, occurrences_app, IH.
Qed.

(** A sum of [n] numbers, each at most one, that reaches [n]. *)
Lemma sum_of_at_most_one {A} (count : A → nat) (a : list A) :
  (∀ x, x ∈ a → (count x ≤ 1)%nat) →
  (sum_list (count <$> a) ≤ length a)%nat
  ∧ ((length a ≤ sum_list (count <$> a))%nat → ∀ x, x ∈ a → count x = 1%nat).
Proof.
  induction a as [| y a IH]; intros Hle.
  - split; [done |]. by intros _ x ?%elem_of_nil.
  - cbn [fmap list_fmap sum_list sum_list_with length Datatypes.id].
    change (list_fmap ?A ?B ?f ?x) with (f <$> x).
    destruct IH as [IH1 IH2]; [intros; apply Hle; by right |].
    pose proof (Hle y ltac:(by left)).
    split; [lia |]. intros Hsum x [-> | Hx]%elem_of_cons; [lia |].
    apply IH2; [lia | done].
Qed.

Lemma sum_of_at_least_one {A} (count : A → nat) (a : list A) :
  (∀ x, x ∈ a → (1 ≤ count x)%nat) → (length a ≤ sum_list (count <$> a))%nat.
Proof.
  induction a as [| y a IH]; intros Hle; [done |].
  cbn [fmap list_fmap sum_list sum_list_with length Datatypes.id].
  change (list_fmap ?A ?B ?f ?x) with (f <$> x).
  pose proof (Hle y ltac:(by left)).
  assert (length a ≤ sum_list (count <$> a))%nat by (apply IH; intros; apply Hle; by right).
  lia.
Qed.

(** The selectable dates: the days of the date items that are counted at
    least as many times as there are layers. *)
Lemma elem_of_selectedLayerDates layers available v :
  layers ≠ [] →
  v ∈ selectedLayerDates layers available
  ↔ ∃ l item,
      l ∈ layers ∧ item ∈ possibleDates available l
      ∧ v = setUTCHours_12_0_0_0 (Date_of_string legacyDateParse (dayString item))
      ∧ (length layers
         ≤ sum_list ((λ l', occurrences (dayString item)
                              (dayString <$> possibleDates available l'))
                     <$> layers))%nat.
Proof.
  intros Hne. unfold selectedLayerDates, selectedLayerDatesDupCount.
  destruct layers as [| l0 layers0] eqn:El; [done |]. rewrite <- El. clear Hne.
  replace (length layers =? 0)%nat with false by (by rewrite El).
  rewrite flat_possibleDates, list_elem_of_fmap.
  setoid_rewrite Object_keys_pickBy_countBy.
  setoid_rewrite occurrences_concat_possibleDates.
  setoid_rewrite list_elem_of_fmap.
  setoid_rewrite elem_of_concat_possibleDates.
  split.
  - intros (key & -> & (item & -> & l & Hl & Hitem) & Hcount). by exists l, item.
  - intros (l & item & Hl & Hitem & -> & Hcount).
    exists (dayString item). split_and!; [done | | done]. exists item. split; [done |].
    by exists l.
Qed.

Lemma setUTCHours_12_0_0_0_midday v t :
  setUTCHours_12_0_0_0 v = Some t → t = midday (Day t).
Proof.
  destruct v as [x |]; [| done]. unfold setUTCHours_12_0_0_0, TimeClip.
  cbn [mbind option_bind]. destruct (_ <=? _); [| done].
  intros [= <-]. by rewrite Day_midday.
Qed.

End selectable.

(** ** The claims on the selectable dates *)

Section selectable_claims.
Context `{Collaborators}.
Implicit Types (layers : list LayerWithDateItems) (l : LayerWithDateItems).
Implicit Types (available : gmap string (list DateItem)).

(** C1, amended.  For a non-empty list of layers with date support, none of
    which has two date items on the same day, and whose date items are in the
    years 0000 to 9999: every selectable date is midday of a day on which
    every layer has a date item, and midday of every such day is
    selectable. *)
Theorem selectedLayerDates_shared_days layers available :
  layers ≠ [] →
  (∀ l, l ∈ layers → distinctDays available l) →
  (∀ l, l ∈ layers → fourDigitYears available l) →
  (∀ v, v ∈ selectedLayerDates layers available →
        ∃ d, v = Some (midday d) ∧ ∀ l, l ∈ layers → hasDateOn available d l)
  ∧ (∀ d, (∀ l, l ∈ layers → hasDateOn available d l) →
          Some (midday d) ∈ selectedLayerDates layers available).
Proof.
  intros Hne Hdistinct Hyears. split.
  - intros v (l & item & Hl & Hitem & -> & Hcount)%elem_of_selectedLayerDates; [| done].
    pose proof (Hyears l Hl item Hitem) as Hitem_year.
    exists (Day (displayDate item)). split; [by apply selectable_of_dayString |].
    intros l' Hl'.
    eapply (sum_of_at_most_one _ layers) in Hcount as Hone; [| | exact Hl'].
    + assert (Hin : dayString item ∈ dayString <$> possibleDates available l')
        by (apply occurrences_pos; simpl in Hone; lia).
      apply list_elem_of_fmap in Hin as (item' & Heq & Hitem').
      exists item'. split; [done |]. symmetry.
      by apply dayString_Day; [| apply (Hyears l') |].
    + intros l'' Hl''. by apply occurrences_NoDup, Hdistinct.
  - intros d Hall. destruct layers as [| l0 layers0] eqn:El; [done |]. rewrite <- El in *.
    destruct (Hall l0) as (item & Hitem & Hday); [rewrite El; by left |].
    assert (Hl0 : l0 ∈ layers) by (rewrite El; by left).
    pose proof (Hyears l0 Hl0 item Hitem) as Hitem_year.
    apply elem_of_selectedLayerDates; [by rewrite El |].
    exists l0, item. split_and!; [done | done | |].
    + rewrite <- Hday. symmetry. by apply selectable_of_dayString.
    + apply sum_of_at_least_one. intros l' Hl'.
      destruct (Hall l' Hl') as (item' & Hitem' & Hday').
      apply occurrences_pos, list_elem_of_fmap. exists item'. split; [| done].
      apply dayString_Day; [done | by apply (Hyears l') | congruence].
Qed.

(** C2, amended.  For layers whose date items are in the years 0000 to 9999
    and none of which has two date items on the same day: when one of the
    layers has no date item, no date is selectable. *)
Theorem selectedLayerDates_layer_without_dates layers available l0 :
  l0 ∈ layers →
  possibleDates available l0 = [] →
  (∀ l, l ∈ layers → distinctDays available l) →
  (∀ l, l ∈ layers → fourDigitYears available l) →
  selectedLayerDates layers available = [].
Proof.
  intros Hl0 Hempty Hdistinct _. apply elem_of_nil_inv. intros v Hv.
  apply elem_of_selectedLayerDates in Hv as (l & item & Hl & Hitem & -> & Hcount);
    [| by intros ->; apply elem_of_nil in Hl0].
  eapply (sum_of_at_most_one _ layers) in Hcount as Hone; [| | exact Hl0].
  - simpl in Hone. rewrite Hempty in Hone. done.
  - intros l' Hl'. by apply occurrences_NoDup, Hdistinct.
Qed.

(** C7.  A time value among the selectable dates, or the date integer of the
    address bar when it is a number, is midday UTC of its day: 12 hours, 0
    minutes, 0 seconds and 0 milliseconds after the start of the day. *)
Theorem midday_normalised layers available st t :
  Some t ∈ selectedLayerDates layers available ∨ dateInt st = Some t →
  t = midday (Day t) ∧ TimeWithinDay t = 12 * msPerHour.
Proof.
  intros Ht. assert (Hm : t = midday (Day t)).
  { destruct Ht as [Ht | Ht].
    - unfold selectedLayerDates in Ht. destruct (_ =? _)%nat; [by apply elem_of_nil in Ht |].
      apply list_elem_of_fmap in Ht as (key & Hkey & _).
      by eapply setUTCHours_12_0_0_0_midday.
    - by eapply setUTCHours_12_0_0_0_midday. }
  split; [done |]. rewrite Hm. apply TimeWithinDay_midday.
Qed.

(** C8.  Without a layer with date support, no date is selectable. *)
Theorem selectedLayerDates_no_layers available :
  selectedLayerDates [] available = [].
Proof. reflexivity. Qed.

(** C9.  The selectable dates have no duplicates: the time values at two
    different positions differ.  The date items are valid time values: on
    another number [toISOString] throws, and the hook returns no dates. *)
Theorem selectedLayerDates_no_duplicates layers available i j a b :
  (∀ l, l ∈ layers → validTimes available l) →
  i ≠ j →
  selectedLayerDates layers available !! i = Some a →
  selectedLayerDates layers available !! j = Some b →
  a ≠ b.
Proof.
  intros Hyears Hij Hi Hj ->. apply Hij.
  assert (Hnd : NoDup (selectedLayerDates layers available));
    [| by eapply NoDup_alt].
  clear i j b Hij Hi Hj.
  unfold selectedLayerDates. destruct (_ =? _)%nat; [constructor |].
  unfold selectedLayerDatesDupCount. rewrite flat_possibleDates.
  apply NoDup_fmap_2_strong;
    [| apply NoDup_Object_keys_pickBy, countBy_spec].
  intros k1 k2 [Hk1 _]%Object_keys_pickBy_countBy [Hk2 _]%Object_keys_pickBy_countBy.
  apply list_elem_of_fmap in Hk1 as (item1 & -> & (l1 & Hl1 & H1)%elem_of_concat_possibleDates).
  apply list_elem_of_fmap in Hk2 as (item2 & -> & (l2 & Hl2 & H2)%elem_of_concat_possibleDates).
  apply selectable_inj; [by apply (Hyears l1) | by apply (Hyears l2)].
Qed.

End selectable_claims.

(** ** The selectable dates of the example layers *)

(** Splits a goal on every element of an explicit list. *)
Ltac each_of_list :=
  let x := fresh "x" in let Hx := fresh "Hx" in
  intros x Hx; try unfold floodAndStormOf in Hx;
  repeat (apply elem_of_cons in Hx as [-> | Hx]);
  [.. | by apply elem_of_nil in Hx].

Example selectedLayerDates_floodAndStorm :
  @selectedLayerDates prism (floodAndStormOf floodAndStorm) floodAndStorm
  = [Some (midday (Day jan2))].
Proof. vm_compute. reflexivity. Qed.

Example selectedLayerDates_floodTwiceOnJan1 :
  @selectedLayerDates prism (floodAndStormOf floodTwiceOnJan1) floodTwiceOnJan1
  = [Some (midday (Day jan1)); Some (midday (Day jan2))].
Proof. vm_compute. reflexivity. Qed.

Example selectedLayerDates_stormWithoutDates :
  @selectedLayerDates prism (floodAndStormOf stormWithoutDates) stormWithoutDates
  = [Some (midday (Day jan1))].
Proof. vm_compute. reflexivity. Qed.

(** The days of a month of the year 10000 count as one selectable date, the
    first day of the month. *)
Example selectedLayerDates_year_10000 :
  @selectedLayerDates prism [withDates floodInYear10000 flood] floodInYear10000
  = [Some (midday (Day year10000)); Some (midday (Day (year10000 + 31 * msPerDay)))].
Proof. vm_compute. reflexivity. Qed.

(** From the year 10000 on the first ten characters of [toISOString] are the
    sign, the year and the month: the days of a month share them. *)
Example dayString_year_10000 :
  dayString (dateItem 253402300800000) = "+010000-01"
  ∧ dayString (dateItem (253402300800000 + msPerDay)) = "+010000-01".
Proof. split; vm_compute; reflexivity. Qed.

Lemma distinctDays_floodAndStorm l :
  l ∈ floodAndStormOf floodAndStorm →
  @distinctDays prism floodAndStorm l ∧ @fourDigitYears prism floodAndStorm l.
Proof.
  revert l. each_of_list.
  - split; [unfold distinctDays; apply (bool_decide_unpack _); vm_compute; reflexivity |].
    unfold fourDigitYears.
    replace (@possibleDates prism floodAndStorm (withDates floodAndStorm flood))
      with [dateItem jan1; dateItem jan2] by (vm_compute; reflexivity).
    each_of_list; vm_compute; done.
  - split; [unfold distinctDays; apply (bool_decide_unpack _); vm_compute; reflexivity |].
    unfold fourDigitYears.
    replace (@possibleDates prism floodAndStorm (withDates floodAndStorm storm))
      with [dateItem jan2; dateItem jan3] by (vm_compute; reflexivity).
    each_of_list; vm_compute; done.
Defined.

(** The law of the shared days fails when a layer has two date items on the
    same day: 1 January is selectable, and the storm layer has no date item
    on it. *)
Lemma sharedDaysLaw_counterexample :
  ¬ sharedDaysLaw prism (floodAndStormOf floodTwiceOnJan1) floodTwiceOnJan1.
Proof.
  intros Hlaw.
  assert (Hitems : ∀ l, l ∈ floodAndStormOf floodTwiceOnJan1 →
                        @possibleDates prism floodTwiceOnJan1 l ≠ [])
    by (each_of_list; vm_compute; done).
  destruct (Hlaw Hitems) with (d := Day jan1) as [Hselectable _].
  - exists (Day jan2). each_of_list.
    + exists (dateItem jan2). split; [vm_compute; do 2 right; left | reflexivity].
    + exists (dateItem jan2). split; [vm_compute; left | reflexivity].
  - assert (Hjan1 : Some (midday (Day jan1))
                    ∈ @selectedLayerDates prism (floodAndStormOf floodTwiceOnJan1)
                        floodTwiceOnJan1)
      by (rewrite selectedLayerDates_floodTwiceOnJan1; left).
    destruct (Hselectable Hjan1 (withDates floodTwiceOnJan1 storm))
      as (item & Hitem & Hday); [right; left |].
    vm_compute in Hitem. apply list_elem_of_singleton in Hitem as ->.
    vm_compute in Hday. done.
Qed.

(** The law of the layer without dates fails when another layer has two date
    items on the same day: 1 January is selectable. *)
Lemma layerWithoutDatesLaw_counterexample :
  ¬ layerWithoutDatesLaw prism (floodAndStormOf stormWithoutDates) stormWithoutDates.
Proof.
  intros Hlaw. pose proof selectedLayerDates_stormWithoutDates as E.
  rewrite Hlaw in E; [discriminate E | done |].
  exists (withDates stormWithoutDates storm).
  split; [by right; left | vm_compute; reflexivity].
Qed.

Lemma selectedLayerDates_shared_days_witness :
  floodAndStormOf floodAndStorm ≠ []
  ∧ (∀ v, v ∈ @selectedLayerDates prism (floodAndStormOf floodAndStorm) floodAndStorm →
          ∃ d, v = Some (midday d)
               ∧ ∀ l, l ∈ floodAndStormOf floodAndStorm →
                      @hasDateOn prism floodAndStorm d l)
  ∧ (∀ d, (∀ l, l ∈ floodAndStormOf floodAndStorm →
                @hasDateOn prism floodAndStorm d l) →
          Some (midday d)
          ∈ @selectedLayerDates prism (floodAndStormOf floodAndStorm) floodAndStorm).
Proof.
  split; [done |].
  apply (@selectedLayerDates_shared_days prism (floodAndStormOf floodAndStorm)
           floodAndStorm); [done | |]; intros l Hl;
    by destruct (distinctDays_floodAndStorm l Hl).
Defined.

Lemma fourDigitYears_stormEmpty l :
  l ∈ floodAndStormOf stormEmpty → @fourDigitYears prism stormEmpty l.
Proof.
  revert l. each_of_list; unfold fourDigitYears.
  - replace (@possibleDates prism stormEmpty (withDates stormEmpty flood))
      with [dateItem jan1; dateItem jan2] by (vm_compute; reflexivity).
    each_of_list; vm_compute; done.
  - replace (@possibleDates prism stormEmpty (withDates stormEmpty storm))
      with (@nil DateItem) by (vm_compute; reflexivity).
    each_of_list.
Defined.

Lemma selectedLayerDates_layer_without_dates_witness :
  withDates stormEmpty storm ∈ floodAndStormOf stormEmpty
  ∧ @possibleDates prism stormEmpty (withDates stormEmpty storm) = []
  ∧ @selectedLayerDates prism (floodAndStormOf stormEmpty) stormEmpty = [].
Proof.
  assert (Hin : withDates stormEmpty storm ∈ floodAndStormOf stormEmpty)
    by (right; left).
  assert (Hempty : @possibleDates prism stormEmpty (withDates stormEmpty storm) = [])
    by (vm_compute; reflexivity).
  split_and!; [done | done |].
  apply (@selectedLayerDates_layer_without_dates prism _ _ _ Hin Hempty);
    [| apply fourDigitYears_stormEmpty].
  each_of_list; unfold distinctDays; apply (bool_decide_unpack _); vm_compute;
    reflexivity.
Defined.

Lemma fourDigitYears_floodTwiceOnJan1 l :
  l ∈ floodAndStormOf floodTwiceOnJan1 → @fourDigitYears prism floodTwiceOnJan1 l.
Proof.
  revert l. each_of_list; unfold fourDigitYears.
  - replace (@possibleDates prism floodTwiceOnJan1 (withDates floodTwiceOnJan1 flood))
      with [dateItem jan1; dateItem (jan1 + 6 * msPerHour); dateItem jan2]
      by (vm_compute; reflexivity).
    each_of_list; vm_compute; done.
  - replace (@possibleDates prism floodTwiceOnJan1 (withDates floodTwiceOnJan1 storm))
      with [dateItem jan2] by (vm_compute; reflexivity).
    each_of_list; vm_compute; done.
Defined.

Lemma validTimes_floodInYear10000 l :
  l ∈ [withDates floodInYear10000 flood] → @validTimes prism floodInYear10000 l.
Proof.
  revert l. each_of_list. unfold validTimes.
  replace (@possibleDates prism floodInYear10000 (withDates floodInYear10000 flood))
    with [dateItem year10000; dateItem (year10000 + msPerDay);
          dateItem (year10000 + 31 * msPerDay)] by (vm_compute; reflexivity).
  each_of_list; vm_compute; done.
Defined.

Lemma selectedLayerDates_no_duplicates_witness :
  Some (midday (Day year10000)) ≠ Some (midday (Day (year10000 + 31 * msPerDay))).
Proof.
  apply (@selectedLayerDates_no_duplicates prism [withDates floodInYear10000 flood]
           floodInYear10000 0%nat 1%nat);
    [apply validTimes_floodInYear10000 | lia | vm_compute; reflexivity
    | vm_compute; reflexivity].
Defined.

(** ** The effects *)

Lemma forEach_effects {A} (a : list A) (f : A → Eff unit) (g : A → list Effect) :
  (∀ x, x ∈ a → f x = (g x, Some tt)) →
  forEach a f = (concat (g <$> a), Some tt).
Proof.
  induction a as [| x a IH]; intros Hf; [done |].
  cbn [forEach fmap list_fmap concat]. unfold bind.
  rewrite (Hf x) by left. rewrite IH by (intros; apply Hf; by right). done.
Qed.

Lemma forEach_returns {A} (a : list A) (f : A → Eff unit) :
  (∀ x, x ∈ a → (f x).2 = Some tt) → (forEach a f).2 = Some tt.
Proof.
  induction a as [| x a IH]; intros Hf; [done |].
  cbn [forEach]. unfold bind. rewrite (Hf x) by left. cbn [snd].
  apply IH. intros; apply Hf; by right.
Qed.

Lemma at_index_last_but_one {A} (others : list A) (a b : A) :
  at_index (others ++ [a; b]) (Z.of_nat (length (others ++ [a; b])) - 2) = Some a.
Proof.
  unfold at_index. rewrite length_app. cbn [length].
  replace (_ <? 0) with false by (symmetry; apply Z.ltb_ge; lia).
  replace (Z.to_nat _) with (length others + 0)%nat by lia.
  by rewrite lookup_app_r, Nat.add_comm, Nat.add_sub by lia.
Qed.

Lemma at_index_last {A} (others : list A) (a b : A) :
  at_index (others ++ [a; b]) (Z.of_nat (length (others ++ [a; b])) - 1) = Some b.
Proof.
  unfold at_index. rewrite length_app. cbn [length].
  replace (_ <? 0) with false by (symmetry; apply Z.ltb_ge; lia).
  replace (Z.to_nat _) with (length others + 1)%nat by lia.
  by rewrite lookup_app_r, Nat.add_comm, Nat.add_sub by lia.
Qed.

Lemma last_two {A} (a : list A) :
  (2 ≤ length a)%nat → ∃ others x y, a = others ++ [x; y].
Proof.
  intros Hlen.
  destruct a as [| y a _] using rev_ind; [simpl in Hlen; lia |].
  destruct a as [| x a _] using rev_ind;
    [rewrite length_app in Hlen; simpl in Hlen; lia |].
  exists a, x, y. by rewrite <- app_assoc.
Qed.

Section effects.
Context `{Collaborators}.
Implicit Types (st : HookInput) (layers : list LayerWithDateItems).

Lemma elem_of_layerDefinitionIds layerId :
  layerId ∈ layerDefinitionIds ↔ is_Some (LayerDefinitions !! layerId).
Proof.
  unfold layerDefinitionIds. rewrite list_elem_of_fmap. split.
  - intros ([k v] & -> & Hin%elem_of_map_to_list). by exists v.
  - intros [v Hv]. exists (layerId, v). split; [done | by apply elem_of_map_to_list].
Qed.

(** The layers with date support are selected layers with date items. *)
Lemma selectedLayersWithDateSupport_dateItems st layers l :
  selectedLayersWithDateSupport st = Some layers → l ∈ layers →
  getPossibleDatesForLayer (layer l) (serverAvailableDates st) = Some (dateItems l).
Proof.
  unfold selectedLayersWithDateSupport. intros Hall%mapM_Some_1 Hl.
  apply list_elem_of_lookup in Hl as [i Hi].
  destruct (Forall2_lookup_r _ _ _ _ _ Hall Hi) as (x & _ & Hx).
  destruct (getPossibleDatesForLayer x _) as [items |] eqn:Hitems; [| done].
  injection Hx as <-. done.
Qed.

Lemma selectedLayersWithDateSupport_length st layers :
  selectedLayersWithDateSupport st = Some layers →
  (length layers ≤ length (selectedLayers st))%nat.
Proof.
  unfold selectedLayersWithDateSupport. intros <-%length_mapM.
  etrans; [apply length_filter |]. apply length_filter.
Qed.

(** When no selected layer passes the filter of the date support, there is no
    layer with date support. *)
Lemma selectedLayersWithDateSupport_no_support st :
  (∀ l, l ∈ selectedLayers st → supportsDates (serverAvailableDates st) l = false) →
  selectedLayersWithDateSupport st = Some [].
Proof.
  intros Hnone. unfold selectedLayersWithDateSupport.
  replace (filter (λ l, supportsDates (serverAvailableDates st) l = true)
             (selectedLayers st)) with (@nil LayerType); [done |].
  symmetry. apply elem_of_nil_inv. intros l [Hl Hin]%list_elem_of_filter.
  by rewrite (Hnone l Hin) in Hl.
Qed.

(** What the last effect does for one layer. *)
Lemma snapToClosestDate_effects st layers date l :
  serverAvailableDatesAreEmpty st = false →
  getPossibleDatesForLayer (layer l) (serverAvailableDates st) = Some (dateItems l) →
  snapToClosestDate st layers date l
  = (if lacksSelectedDate date l then snapEffects st layers date l else [], Some tt).
Proof.
  intros Hdates Hitems.
  unfold snapToClosestDate, possibleDatesForLayerIncludeSelectedDate, lacksSelectedDate,
    snapEffects, noDataNotification, closestSelectableDate.
  rewrite Hdates, Hitems. cbn [mbind option_bind].
  destruct (binaryIncludes _ _ _); [done |]. cbn [negb].
  by destruct (datesAreEqualWithoutTime _ _).
Qed.

(** The last effect, when its guard lets it run: what it does for each layer
    without a date item on the selected date, in the order of the layers. *)
Lemma snapDateOutOfRange_effects st layers date :
  selectedLayersWithDateSupport st = Some layers → snapRuns st date →
  snapDateOutOfRange st
  = (concat ((λ l, if lacksSelectedDate date l
                   then snapEffects st layers date l else []) <$> layers),
     Some tt).
Proof.
  intros Hlayers (Hdate & Hnz & (url & Hurl & Hne & Hdiff) & Hdates).
  unfold snapDateOutOfRange. rewrite Hlayers, Hdate, Hurl, Hdiff.
  replace (date =? 0) with false by (symmetry; by apply Z.eqb_neq).
  replace (String.eqb url "") with false by (symmetry; by apply String.eqb_neq).
  cbn [orb]. apply forEach_effects. intros l Hl.
  apply snapToClosestDate_effects; [done |].
  by eapply selectedLayersWithDateSupport_dateItems.
Qed.

(** The date integer of a date of the address bar that can be parsed: midday
    of its day. *)
Lemma dateInt_of_urlDate st s t :
  urlDate st = Some s → s ≠ "" →
  Date_of_string legacyDateParse s = Some t →
  dateInt st = TimeClip (midday (Day t)).
Proof.
  intros Hurl Hne Hparse. unfold dateInt. rewrite Hurl, Hparse.
  replace (String.eqb s "") with false by (symmetry; by apply String.eqb_neq).
  reflexivity.
Qed.

(** Without a date in the address bar, the date integer is midday of the
    current day. *)
Lemma dateInt_without_urlDate st :
  urlDate st = None → Z.abs (currentTime st) <= maxTime →
  dateInt st = TimeClip (midday (Day (currentTime st))).
Proof.
  intros Hurl Hnow. unfold dateInt. rewrite Hurl. unfold TimeClip at 1.
  replace (Z.abs _ <=? maxTime) with true by (symmetry; by apply Z.leb_le).
  reflexivity.
Qed.

Lemma load_guard st :
  truthy_string (hazardLayerIds st) = true
  ∨ truthy_string (baselineLayerIds st) = true →
  negb (truthy_string (hazardLayerIds st))
  && negb (truthy_string (baselineLayerIds st)) = false.
Proof. intros [-> | ->]; [done | apply andb_false_r]. Qed.

(** Every missing layer is in the registry when no layer id of the address
    bar is invalid, and adding the missing layers does not throw. *)
Lemma addMissingLayers_returns st :
  invalidLayersIds st = [] → (addMissingLayers st).2 = Some tt.
Proof.
  intros Hvalid. unfold addMissingLayers. apply forEach_returns. intros layerId Hin.
  apply list_elem_of_filter in Hin as [_ Hin].
  destruct (LayerDefinitions !! layerId) as [l |] eqn:Hl.
  - unfold bind. cbn [fst snd].
    by destruct (checkLayerAvailableDatesAndContinueOrRemove l _) as [effects [message |]].
  - exfalso. eapply (filter_nil_not_elem_of _ _ layerId Hvalid); [| done].
    rewrite elem_of_layerDefinitionIds, Hl. by intros [? ?].
Qed.

End effects.

(** ** The claims on the effects *)

Lemma concat_filter {A B} (p : A → bool) (g : A → list B) (a : list A) :
  concat ((λ x, if p x then g x else []) <$> a)
  = concat (g <$> filter (λ x, p x = true) a).
Proof.
  induction a as [| x a IH]; [done |].
  cbn [fmap list_fmap concat]. rewrite filter_cons.
  change (list_fmap ?A ?B ?f ?x) with (f <$> x). rewrite IH.
  destruct (p x); [by rewrite decide_True | by rewrite decide_False].
Qed.

Lemma elem_of_concat {A} (x : A) (ls : list (list A)) :
  x ∈ concat ls ↔ ∃ l, x ∈ l ∧ l ∈ ls.
Proof.
  induction ls as [| l ls IH]; cbn [concat].
  - split; [by intros ?%elem_of_nil | by intros (? & _ & ?%elem_of_nil)].
  - rewrite elem_of_app, IH. split.
    + intros [? | (l' & ? & ?)]; [exists l | exists l']; split; try done;
        [by left | by right].
    + intros (l' & ? & [-> | ?]%elem_of_cons); [by left | right; by exists l'].
Qed.

Section effect_claims.
Context `{Collaborators}.
Implicit Types (st : HookInput) (layers : list LayerWithDateItems).

(** C3, amended.  When no date is selectable with two or more layers with
    date support and a date is selected, the effect notifies the user, removes
    the last but one of the selected layers in the order of [layerOrdering]
    from the address bar and from the store, keeps the last one, and writes
    the closest date of the layer that is kept to the address bar; it throws
    instead of writing the date when the dates of that layer are undefined. *)
Theorem removeLayerWithoutOverlap_last_but_one st layers date :
  noOverlap st layers date →
  ∃ others layerToRemove layerToKeep,
    selectedLayers st = others ++ [layerToRemove; layerToKeep]
    ∧ removeLayerWithoutOverlap st
      = match getPossibleDatesForLayer layerToKeep (serverAvailableDates st) with
        | Some items =>
            ([noOverlapNotification layerToRemove;
              removeLayerFromUrl (getUrlKey layerToRemove) (id layerToRemove);
              removeLayer layerToRemove;
              updateHistory DATE
                (getFormattedDate
                   (findClosestDate date ((λ x, Some (displayDate x)) <$> items)))],
             Some tt)
        | None =>
            ([noOverlapNotification layerToRemove;
              removeLayerFromUrl (getUrlKey layerToRemove) (id layerToRemove);
              removeLayer layerToRemove],
             None)
        end.
Proof.
  intros (Hlayers & Hlen & Hnone & Hdate & Hnz).
  pose proof (selectedLayersWithDateSupport_length _ _ Hlayers) as Hle.
  destruct (last_two (selectedLayers st)) as (others & layerToRemove & layerToKeep & Hsel);
    [lia |].
  exists others, layerToRemove, layerToKeep. split; [done |].
  unfold removeLayerWithoutOverlap, removeLayerAndUpdateHistory.
  rewrite Hlayers, Hnone, Hdate, Hsel, at_index_last_but_one, at_index_last.
  replace (length layers =? 0)%nat with false by (symmetry; apply Nat.eqb_neq; lia).
  unfold truthy_number.
  replace (date =? 0) with false by (symmetry; by apply Z.eqb_neq).
  cbn [length Nat.eqb negb orb]. unfold bind, noOverlapNotification.
  by destruct (getPossibleDatesForLayer layerToKeep _).
Qed.

(** C4, amended.  When the guard of the effect lets it run, every layer with
    date support that has no date item on the selected date triggers the
    action, in the order of the layers: the date of the address bar moves to
    the closest selectable date, unless that date is on the selected day,
    and a notification is dispatched for the layer. *)
Theorem snapDateOutOfRange_every_mismatch st layers date :
  selectedLayersWithDateSupport st = Some layers → snapRuns st date →
  snapDateOutOfRange st
  = (concat (snapEffects st layers date
             <$> filter (λ l, lacksSelectedDate date l = true) layers),
     Some tt).
Proof.
  intros Hlayers Hruns. rewrite (snapDateOutOfRange_effects _ _ _ Hlayers Hruns).
  by rewrite concat_filter.
Qed.

(** C5, amended.  For a layer id of the address bar that is not in the
    registry: when the address bar has layer ids and the table of the server
    has dates, the id is among the invalid ids, and the effect dispatches the
    error notification that lists them and does nothing else, so that it adds
    no layer; while the table of the server is empty, the effect returns
    without a notification. *)
Theorem loadFromUrl_invalid_layer st layerId :
  layerId ∈ urlLayerIds st → LayerDefinitions !! layerId = None →
  (loadRuns st →
   layerId ∈ invalidLayersIds st
   ∧ loadFromUrl st = ([invalidLayersNotification st], Some tt))
  ∧ (serverAvailableDatesAreEmpty st = true → loadFromUrl st = ([], Some tt)).
Proof.
  intros Hurl Hnone. split.
  - intros [Hids Hdates].
    assert (Hin : layerId ∈ invalidLayersIds st).
    { apply list_elem_of_filter. split; [| done].
      rewrite elem_of_layerDefinitionIds, Hnone. by intros [? ?]. }
    split; [done |]. unfold loadFromUrl, invalidLayersNotification.
    rewrite Hdates, (load_guard _ Hids).
    cbn [orb]. destruct (invalidLayersIds st); [by apply elem_of_nil in Hin | done].
  - intros Hempty. unfold loadFromUrl. rewrite Hempty. by rewrite orb_true_r.
Qed.

(** C6, amended.  When the address bar has layer ids, all of them in the
    registry, and the table of the server has dates, a date of the address
    bar that cannot be parsed makes the effect add the missing layers and
    then dispatch the warning; it updates neither the date range nor the
    address bar. *)
Theorem loadFromUrl_invalid_date st s :
  loadRuns st → invalidLayersIds st = [] →
  urlDate st = Some s → s ≠ "" → Date_of_string legacyDateParse s = None →
  loadFromUrl st = ((addMissingLayers st).1 ++ [invalidDateNotification], Some tt).
Proof.
  intros [Hids Hdates] Hvalid Hurl Hne Hparse.
  pose proof (addMissingLayers_returns _ Hvalid) as Hret.
  assert (Hint : dateInt st = None).
  { unfold dateInt. rewrite Hurl, Hparse.
    by replace (String.eqb s "") with false by (symmetry; by apply String.eqb_neq). }
  unfold loadFromUrl. rewrite Hdates, Hvalid, (load_guard _ Hids), Hurl, Hint.
  unfold truthy_string.
  replace (String.eqb s "") with false by (symmetry; by apply String.eqb_neq).
  cbn [orb length Nat.ltb Nat.leb negb number_eq]. unfold bind. by rewrite Hret.
Qed.

(** C10.  When the guard of the effect lets it run and the closest selectable
    date is on the day of the selected date, the effect updates no entry of
    the address bar, and it still dispatches the notification of every layer
    that has no date item on the selected date. *)
Theorem snapDateOutOfRange_same_day st layers date :
  selectedLayersWithDateSupport st = Some layers → snapRuns st date →
  datesAreEqualWithoutTime (setUTCHours_12_0_0_0 (TimeClip date))
    (closestSelectableDate st layers date) = true →
  (∀ key value, updateHistory key value ∉ (snapDateOutOfRange st).1)
  ∧ ∀ l, l ∈ layers → lacksSelectedDate date l = true →
         noDataNotification st layers date l ∈ (snapDateOutOfRange st).1.
Proof.
  intros Hlayers Hruns Hsame.
  rewrite (snapDateOutOfRange_effects _ _ _ Hlayers Hruns). cbn [fst].
  clear Hlayers. split.
  - intros key value (effects & Hin & (l & -> & Hl)%list_elem_of_fmap)%elem_of_concat.
    destruct (lacksSelectedDate date l); [| by apply elem_of_nil in Hin].
    unfold snapEffects in Hin. rewrite Hsame in Hin.
    apply elem_of_app in Hin as [Hin | Hin%list_elem_of_singleton]; [| done].
    by repeat (apply elem_of_cons in Hin as [Hin | Hin]; [done |]);
      apply elem_of_nil in Hin.
  - intros l Hl Hlacks. apply elem_of_concat.
    exists (snapEffects st layers date l). split.
    + unfold snapEffects. apply elem_of_app. right. by left.
    + apply list_elem_of_fmap. exists l. by rewrite Hlacks.
Qed.

End effect_claims.

(** ** The effects on the example inputs *)

Example removeLayerWithoutOverlap_sheltersAddedLast :
  @removeLayerWithoutOverlap prism sheltersAddedLast
  = ([noOverlapNotification shelters; removeLayerFromUrl HAZARD "shelters";
      removeLayer shelters; updateHistory DATE "2024-01-01"],
     Some tt).
Proof. vm_compute. reflexivity. Qed.

Example snapDateOutOfRange_jan2Selected :
  @snapDateOutOfRange prism jan2Selected
  = ([updateHistory DATE "2024-01-01";
      addNotification
        "No data was found for layer 'flood' on 2024-01-02. The closest date 2024-01-01 has been loaded instead."
        warning;
      updateHistory DATE "2024-01-01";
      addNotification
        "No data was found for layer 'storm' on 2024-01-02. The closest date 2024-01-01 has been loaded instead."
        warning],
     Some tt).
Proof. vm_compute. reflexivity. Qed.

Example loadFromUrl_volcanoBeforeDates :
  @loadFromUrl prism volcanoBeforeDates = ([], Some tt).
Proof. vm_compute. reflexivity. Qed.

Example loadFromUrl_dateYesterday :
  @loadFromUrl prism dateYesterday = ([invalidDateNotification], Some tt).
Proof. vm_compute. reflexivity. Qed.

Lemma noOverlap_sheltersAddedLast :
  @noOverlap prism sheltersAddedLast sheltersAndFlood (midday (Day jan1)).
Proof.
  split_and!; [vm_compute; reflexivity | vm_compute; lia | vm_compute; reflexivity
              | reflexivity | vm_compute; discriminate].
Defined.

Lemma snapRuns_jan2Selected : @snapRuns prism jan2Selected (midday (Day jan2)).
Proof.
  split_and!; [reflexivity | vm_compute; discriminate | | vm_compute; reflexivity].
  exists "2024-01-02". split_and!; [reflexivity | discriminate | vm_compute; reflexivity].
Defined.

Lemma snapRuns_jan3Selected : @snapRuns prism jan3Selected (midday (Day jan3)).
Proof.
  split_and!; [reflexivity | vm_compute; discriminate | | vm_compute; reflexivity].
  exists "2024-01-03". split_and!; [reflexivity | discriminate | vm_compute; reflexivity].
Defined.

Lemma loadRuns_volcanoWithDates : loadRuns volcanoWithDates.
Proof. split; [left |]; vm_compute; reflexivity. Defined.

Lemma loadRuns_dateYesterday : loadRuns dateYesterday.
Proof. split; [left |]; vm_compute; reflexivity. Defined.

(** The law of the second most recent layer fails when [layerOrdering] moves
    the layer that was added last: the shelters were added last and sort
    first, and the effect removes the shelters and keeps the flood layer. *)
Lemma secondMostRecentLaw_counterexample :
  ¬ secondMostRecentLaw prism sheltersAddedLast.
Proof.
  intros Hlaw.
  destruct (Hlaw _ _ noOverlap_sheltersAddedLast)
    as (others & secondMostRecent & mostRecent & items & Hadded & Hremoved & _).
  change (unsortedSelectedLayers sheltersAddedLast)
    with ([] ++ [flood; shelters]) in Hadded.
  apply app_inj_2 in Hadded as [_ [= <- <-]]; [| done].
  rewrite removeLayerWithoutOverlap_sheltersAddedLast in Hremoved.
  revert Hremoved. apply (bool_decide_unpack _). vm_compute. reflexivity.
Qed.

(** The law of the first layer fails with two layers without a date item on
    the selected date: the date moves and the user is notified for both. *)
Lemma firstMismatchLaw_counterexample : ¬ firstMismatchLaw prism jan2Selected.
Proof.
  intros Hlaw.
  assert (Hlayers : @selectedLayersWithDateSupport prism jan2Selected
                    = Some bothOnJan1Layers) by (vm_compute; reflexivity).
  assert (Hsplit : bothOnJan1Layers
                   = [] ++ withDates bothOnJan1 flood :: [withDates bothOnJan1 storm])
    by reflexivity.
  assert (Hlacks : @lacksSelectedDate prism (midday (Day jan2)) (withDates bothOnJan1 flood)
                   = true) by (vm_compute; reflexivity).
  assert (Hfirst : @snapEffects prism jan2Selected bothOnJan1Layers (midday (Day jan2))
                     (withDates bothOnJan1 flood)
                   = [updateHistory DATE "2024-01-01";
                      addNotification
                        "No data was found for layer 'flood' on 2024-01-02. The closest date 2024-01-01 has been loaded instead."
                        warning]) by (vm_compute; reflexivity).
  pose proof (Hlaw _ _ Hlayers snapRuns_jan2Selected _ _ _ Hsplit
                (λ l Hl, False_ind _ (proj1 (elem_of_nil l) Hl)) Hlacks) as E.
  rewrite snapDateOutOfRange_jan2Selected, Hfirst in E. discriminate E.
Qed.

(** The law of the invalid layer fails while the table of the server is
    empty: the effect returns at once, without a notification. *)
Lemma invalidLayerLaw_counterexample : ¬ invalidLayerLaw prism volcanoBeforeDates.
Proof.
  intros Hlaw.
  destruct (Hlaw "volcano") as [(message & Hnotified) _];
    [vm_compute; left | vm_compute; reflexivity |].
  rewrite loadFromUrl_volcanoBeforeDates in Hnotified. by apply elem_of_nil in Hnotified.
Qed.

(** The law of the invalid date fails when no date is selected yet: the
    effect dispatches the warning, and no date is selected afterwards. *)
Lemma invalidDateLaw_counterexample : ¬ invalidDateLaw prism dateYesterday.
Proof.
  intros Hlaw.
  destruct (Hlaw "yesterday") as [_ (t & Hselected & _)];
    [reflexivity | discriminate | vm_compute; reflexivity |].
  rewrite loadFromUrl_dateYesterday in Hselected. discriminate Hselected.
Qed.

(** ** The theorems at the example inputs *)

Lemma removeLayerWithoutOverlap_last_but_one_witness :
  @noOverlap prism sheltersAddedLast sheltersAndFlood (midday (Day jan1))
  ∧ ∃ others layerToRemove layerToKeep,
      @selectedLayers prism sheltersAddedLast = others ++ [layerToRemove; layerToKeep]
      ∧ @removeLayerWithoutOverlap prism sheltersAddedLast
        = match datesOfTable layerToKeep oneDayEach with
          | Some items =>
              ([noOverlapNotification layerToRemove;
                removeLayerFromUrl (@getUrlKey prism layerToRemove) (id layerToRemove);
                removeLayer layerToRemove;
                updateHistory DATE
                  (@getFormattedDate prism
                     (closestOf (midday (Day jan1))
                        ((λ x, Some (displayDate x)) <$> items)))],
               Some tt)
          | None =>
              ([noOverlapNotification layerToRemove;
                removeLayerFromUrl (@getUrlKey prism layerToRemove) (id layerToRemove);
                removeLayer layerToRemove],
               None)
          end.
Proof.
  split; [exact noOverlap_sheltersAddedLast |].
  exact (@removeLayerWithoutOverlap_last_but_one prism sheltersAddedLast
           sheltersAndFlood (midday (Day jan1)) noOverlap_sheltersAddedLast).
Defined.

Lemma selectedLayersWithDateSupport_jan2Selected :
  @selectedLayersWithDateSupport prism jan2Selected = Some bothOnJan1Layers.
Proof. vm_compute. reflexivity. Defined.

Lemma selectedLayersWithDateSupport_jan3Selected :
  @selectedLayersWithDateSupport prism jan3Selected = Some oneDayEachLayers.
Proof. vm_compute. reflexivity. Defined.

Lemma snapDateOutOfRange_every_mismatch_witness :
  @snapRuns prism jan2Selected (midday (Day jan2))
  ∧ @snapDateOutOfRange prism jan2Selected
    = (concat (@snapEffects prism jan2Selected bothOnJan1Layers (midday (Day jan2))
               <$> filter (λ l, @lacksSelectedDate prism (midday (Day jan2)) l = true)
                     bothOnJan1Layers),
       Some tt).
Proof.
  split; [exact snapRuns_jan2Selected |].
  exact (@snapDateOutOfRange_every_mismatch prism jan2Selected bothOnJan1Layers
           (midday (Day jan2)) selectedLayersWithDateSupport_jan2Selected
           snapRuns_jan2Selected).
Defined.

Lemma loadFromUrl_invalid_layer_witness :
  (loadRuns volcanoWithDates
   ∧ "volcano" ∈ @invalidLayersIds prism volcanoWithDates
   ∧ @loadFromUrl prism volcanoWithDates
     = ([@invalidLayersNotification prism volcanoWithDates], Some tt))
  ∧ serverAvailableDatesAreEmpty volcanoBeforeDates = true
  ∧ @loadFromUrl prism volcanoBeforeDates = ([], Some tt).
Proof.
  split.
  - split; [exact loadRuns_volcanoWithDates |].
    apply (@loadFromUrl_invalid_layer prism volcanoWithDates "volcano");
      [vm_compute; right; left | vm_compute; reflexivity
      | exact loadRuns_volcanoWithDates].
  - split; [reflexivity |].
    apply (@loadFromUrl_invalid_layer prism volcanoBeforeDates "volcano");
      [vm_compute; left | vm_compute; reflexivity | reflexivity].
Defined.

Lemma loadFromUrl_invalid_date_witness :
  loadRuns dateYesterday
  ∧ @loadFromUrl prism dateYesterday
    = ((@addMissingLayers prism dateYesterday).1 ++ [invalidDateNotification], Some tt).
Proof.
  split; [exact loadRuns_dateYesterday |].
  apply (@loadFromUrl_invalid_date prism dateYesterday "yesterday");
    [exact loadRuns_dateYesterday | vm_compute; reflexivity | reflexivity
    | discriminate | vm_compute; reflexivity].
Defined.

Lemma midday_normalised_witness :
  midday (Day jan2) = midday (Day (midday (Day jan2)))
  ∧ TimeWithinDay (midday (Day jan2)) = 12 * msPerHour.
Proof.
  apply (@midday_normalised prism (floodAndStormOf floodAndStorm) floodAndStorm
           jan3Selected (midday (Day jan2))).
  left. rewrite selectedLayerDates_floodAndStorm. left.
Defined.

Lemma snapDateOutOfRange_same_day_witness :
  @snapRuns prism jan3Selected (midday (Day jan3))
  ∧ (∀ key value, updateHistory key value ∉ (@snapDateOutOfRange prism jan3Selected).1)
  ∧ ∀ l, l ∈ oneDayEachLayers →
         @lacksSelectedDate prism (midday (Day jan3)) l = true →
         @noDataNotification prism jan3Selected oneDayEachLayers (midday (Day jan3)) l
         ∈ (@snapDateOutOfRange prism jan3Selected).1.
Proof.
  split; [exact snapRuns_jan3Selected |].
  apply (@snapDateOutOfRange_same_day prism jan3Selected oneDayEachLayers
           (midday (Day jan3)) selectedLayersWithDateSupport_jan3Selected
           snapRuns_jan3Selected).
  vm_compute. reflexivity.
Defined.

(** * Further properties of the hook *)

(** ** The selectable dates *)

Section selectable_further.
Context `{Collaborators}.
Implicit Types (layers : list LayerWithDateItems) (l : LayerWithDateItems).
Implicit Types (available : gmap string (list DateItem)).

(** In the years 0000 to 9999 the count of a day string is the number of
    date items on its day. *)
Lemma occurrences_dayString (items : list DateItem) item :
  (∀ x, x ∈ items → fourDigitYear (displayDate x)) →
  fourDigitYear (displayDate item) →
  occurrences (dayString item) (dayString <$> items)
  = length (filter (λ x, Day (displayDate x) = Day (displayDate item)) items).
Proof.
  intros Hitems Hitem. induction items as [| x items IH]; [done |].
  rewrite fmap_cons, occurrences_cons, filter_cons.
  rewrite IH by (intros; apply Hitems; by right).
  pose proof (dayString_Day x item (Hitems x ltac:(by left)) Hitem) as Hday.
  destruct (decide (dayString x = dayString item)) as [Heq | Hne].
  - by rewrite decide_True by (by apply Hday).
  - by rewrite decide_False by (by intros ?%Hday).
Qed.

Lemma fourDigitYears_concat layers available item :
  (∀ l, l ∈ layers → fourDigitYears available l) →
  item ∈ concat (possibleDates available <$> layers) →
  fourDigitYear (displayDate item).
Proof.
  intros Hyears (l & Hl & Hitem)%elem_of_concat_possibleDates. by apply (Hyears l).
Qed.

(** X1.  For a non-empty list of layers whose date items are in the years
    0000 to 9999, midday of a day is selectable exactly when the date items of
    all the layers together that are on that day are at least as many as the
    layers. *)
Theorem selectedLayerDates_counts layers available d :
  layers ≠ [] →
  (∀ l, l ∈ layers → fourDigitYears available l) →
  Some (midday d) ∈ selectedLayerDates layers available
  ↔ (length layers ≤ itemsOn available d layers)%nat.
Proof.
  intros Hne Hyears. rewrite (elem_of_selectedLayerDates _ _ _ Hne). unfold itemsOn.
  split.
  - intros (l & item & Hl & Hitem & Hv & Hcount).
    pose proof (Hyears l Hl item Hitem) as Hyear.
    rewrite selectable_of_dayString in Hv by done. injection Hv as ->%midday_inj.
    rewrite <- occurrences_concat_possibleDates in Hcount.
    rewrite occurrences_dayString in Hcount; [done | | done].
    intros x. by apply fourDigitYears_concat.
  - intros Hcount.
    destruct (filter _ (concat _)) as [| item rest] eqn:Hfilter.
    { destruct layers; [done | simpl in Hcount; lia]. }
    assert (Hin : item ∈ filter (λ item, Day (displayDate item) = d)
                    (concat (possibleDates available <$> layers)))
      by (rewrite Hfilter; left).
    apply list_elem_of_filter in Hin as [<- Hin].
    pose proof (fourDigitYears_concat _ _ _ Hyears Hin) as Hyear.
    apply elem_of_concat_possibleDates in Hin as (l & Hl & Hitem).
    exists l, item. split_and!; [done | done | by rewrite selectable_of_dayString |].
    rewrite <- occurrences_concat_possibleDates, occurrences_dayString; [| | done].
    + by rewrite Hfilter.
    + intros x. by apply fourDigitYears_concat.
Qed.

(** A day that the layers share is selectable, whatever else they have. *)
Lemma shared_day_selectable layers available d :
  layers ≠ [] →
  (∀ l, l ∈ layers → fourDigitYears available l) →
  (∀ l, l ∈ layers → hasDateOn available d l) →
  Some (midday d) ∈ selectedLayerDates layers available.
Proof.
  intros Hne Hyears Hall. destruct layers as [| l0 layers0] eqn:El; [done |].
  rewrite <- El in *.
  assert (Hl0 : l0 ∈ layers) by (rewrite El; by left).
  destruct (Hall l0 Hl0) as (item & Hitem & Hday).
  pose proof (Hyears l0 Hl0 item Hitem) as Hyear.
  apply elem_of_selectedLayerDates; [done |].
  exists l0, item. split_and!; [done | done | |].
  - rewrite <- Hday. symmetry. by apply selectable_of_dayString.
  - apply sum_of_at_least_one. intros l' Hl'.
    destruct (Hall l' Hl') as (item' & Hitem' & Hday').
    apply occurrences_pos, list_elem_of_fmap. exists item'. split; [| done].
    apply dayString_Day; [done | by apply (Hyears l') | congruence].
Qed.

(** X2.  For a non-empty list of layers whose date items are in the years
    0000 to 9999, a day on which every layer has a date item is selectable,
    also when a layer has several date items on a day: a duplicate never
    hides a day that the layers share, and the date items on such a day are
    at least as many as the layers. *)
Theorem selectedLayerDates_shared_day_kept layers available d :
  layers ≠ [] →
  (∀ l, l ∈ layers → fourDigitYears available l) →
  (∀ l, l ∈ layers → hasDateOn available d l) →
  Some (midday d) ∈ selectedLayerDates layers available
  ∧ (length layers ≤ itemsOn available d layers)%nat.
Proof.
  intros Hne Hyears Hall. split; [by apply shared_day_selectable |].
  unfold itemsOn. clear Hne Hyears.
  induction layers as [| l layers IH]; [done |].
  cbn [fmap list_fmap concat length]. change (list_fmap ?A ?B ?f ?x) with (f <$> x).
  rewrite filter_app, length_app.
  assert (length layers
          ≤ length (filter (λ item, Day (displayDate item) = d)
                      (concat (possibleDates available <$> layers))))%nat
    by (apply IH; intros; apply Hall; by right).
  destruct (Hall l ltac:(by left)) as (item & Hitem & Hday).
  assert (Hin : item ∈ filter (λ item, Day (displayDate item) = d)
                  (possibleDates available l)) by (by apply list_elem_of_filter).
  destruct (filter _ (possibleDates available l)); [by apply elem_of_nil in Hin |].
  cbn [length]. lia.
Qed.

(** X3.  With date items in the years 0000 to 9999, no selectable date is
    [NaN]: each is midday UTC of the day of a date item of one of the
    layers. *)
Theorem selectedLayerDates_from_items layers available v :
  (∀ l, l ∈ layers → fourDigitYears available l) →
  v ∈ selectedLayerDates layers available →
  ∃ l item, l ∈ layers ∧ item ∈ possibleDates available l
            ∧ v = Some (midday (Day (displayDate item))).
Proof.
  intros Hyears Hv. destruct (decide (layers = [])) as [-> | Hne];
    [by apply elem_of_nil in Hv |].
  apply elem_of_selectedLayerDates in Hv as (l & item & Hl & Hitem & -> & _); [| done].
  exists l, item. split_and!; [done | done |].
  by apply selectable_of_dayString, (Hyears l).
Qed.

(** X4.  With a single layer whose date items are in the years 0000 to 9999,
    the selectable dates are the days of its date items, whether or not
    several of them are on the same day. *)
Theorem selectedLayerDates_single_layer l available v :
  fourDigitYears available l →
  v ∈ selectedLayerDates [l] available
  ↔ ∃ item, item ∈ possibleDates available l
            ∧ v = Some (midday (Day (displayDate item))).
Proof.
  intros Hyears. rewrite elem_of_selectedLayerDates by done. split.
  - intros (l' & item & ->%list_elem_of_singleton & Hitem & -> & _).
    exists item. split; [done |]. by apply selectable_of_dayString, Hyears.
  - intros (item & Hitem & ->). exists l, item.
    split_and!; [by left | done | symmetry; by apply selectable_of_dayString, Hyears |].
    cbn [fmap list_fmap sum_list sum_list_with length Datatypes.id].
    assert (1 ≤ occurrences (dayString item) (dayString <$> possibleDates available l))%nat
      by (apply occurrences_pos, list_elem_of_fmap; by exists item).
    lia.
Qed.

(** X5.  The set of the selectable dates does not depend on the order of the
    layers. *)
Theorem selectedLayerDates_Permutation layers layers' available v :
  layers ≡ₚ layers' →
  v ∈ selectedLayerDates layers available ↔ v ∈ selectedLayerDates layers' available.
Proof.
  intros Hperm. destruct (decide (layers = [])) as [-> | Hne].
  { by apply Permutation_nil_l in Hperm as ->. }
  assert (Hne' : layers' ≠ []) by (intros ->; by apply Permutation_nil_r in Hperm).
  rewrite !elem_of_selectedLayerDates by done.
  split; intros (l & item & Hl & Hitem & Hv & Hcount); exists l, item.
  - split_and!; [by rewrite <- Hperm | done | done | by rewrite <- Hperm].
  - split_and!; [by rewrite Hperm | done | done | by rewrite Hperm].
Qed.

(** X6.  For layers whose date items are in the years 0000 to 9999, adding a
    layer that has no two date items on the same day to a non-empty list of
    layers adds no selectable date. *)
Theorem selectedLayerDates_add_layer l layers available v :
  layers ≠ [] → distinctDays available l →
  (∀ l', l' ∈ l :: layers → fourDigitYears available l') →
  v ∈ selectedLayerDates (l :: layers) available →
  v ∈ selectedLayerDates layers available.
Proof.
  intros Hne Hdistinct _.
  rewrite !elem_of_selectedLayerDates by done.
  intros (l' & item & Hl' & Hitem & -> & Hcount).
  cbn [fmap list_fmap sum_list sum_list_with length Datatypes.id] in Hcount.
  change (list_fmap ?A ?B ?f ?x) with (f <$> x) in Hcount.
  pose proof (occurrences_NoDup (dayString item) _ Hdistinct) as Hone.
  assert (Hrest : (length layers
                   ≤ sum_list ((λ l', occurrences (dayString item)
                                        (dayString <$> possibleDates available l'))
                               <$> layers))%nat) by lia.
  assert (Hpos : (1 ≤ occurrences (dayString item)
                        (dayString <$> concat (possibleDates available <$> layers)))%nat).
  { rewrite occurrences_concat_possibleDates. destruct layers; [done | simpl in *; lia]. }
  apply occurrences_pos, list_elem_of_fmap in Hpos as (item' & Heq & Hin).
  apply elem_of_concat_possibleDates in Hin as (l'' & Hl'' & Hitem'').
  exists l'', item'. split_and!; [done | done | by rewrite Heq | by rewrite <- Heq].
Qed.

End selectable_further.

(** ** The selected layers and the layers with date support *)

Lemma sort_insert_Permutation {A} (compare : A → A → Z) x (sorted : list A) :
  sort_insert compare x sorted ≡ₚ x :: sorted.
Proof.
  induction sorted as [| y rest IH]; [done |]. cbn [sort_insert].
  destruct (_ <=? _); [done |]. rewrite IH. apply Permutation_swap.
Qed.

Lemma sort_Permutation {A} (compare : A → A → Z) (a : list A) :
  sort compare a ≡ₚ a.
Proof.
  unfold sort. induction a as [| x a IH]; [done |]. cbn [foldr].
  by rewrite sort_insert_Permutation, IH.
Qed.

Lemma sort_insert_sorted {A} (compare : A → A → Z) x (sorted : list A) :
  (∀ a b, compare a b <= 0 ∨ compare b a <= 0) →
  (∀ a b c, compare a b <= 0 → compare b c <= 0 → compare a c <= 0) →
  StronglySorted (λ a b, compare a b <= 0) sorted →
  StronglySorted (λ a b, compare a b <= 0) (sort_insert compare x sorted).
Proof.
  intros Htotal Htrans. induction 1 as [| y rest Hrest IH Hy]; cbn [sort_insert].
  - repeat constructor.
  - destruct (Z.leb_spec (compare x y) 0) as [Hle | Hgt].
    + constructor; [by constructor |]. constructor; [done |].
      eapply Forall_impl; [exact Hy |]. intros z Hz. by eapply Htrans.
    + constructor; [done |].
      rewrite sort_insert_Permutation. constructor; [| done].
      destruct (Htotal x y); [lia | done].
Qed.

(** A consistent comparator puts any two elements one way or the other, and
    its order is transitive. *)
Lemma consistentComparator_total {A} (compare : A → A → Z) a b :
  consistentComparator compare → compare a b <= 0 ∨ compare b a <= 0.
Proof.
  intros (Hrefl & _ & _ & _ & Hafter).
  destruct (Z.leb_spec (compare a b) 0) as [| Hab]; [by left | right].
  destruct (Z.leb_spec (compare b a) 0) as [| Hba]; [done |].
  pose proof (Hafter a b a ltac:(lia) ltac:(lia)). pose proof (Hrefl a). lia.
Qed.

Lemma consistentComparator_before {A} (compare : A → A → Z) a b :
  consistentComparator compare → compare a b > 0 → compare b a < 0.
Proof.
  intros (Hrefl & Hsym & _ & _ & Hafter) Hab.
  destruct (Z.lt_trichotomy (compare b a) 0) as [| [Hba | Hba]]; [done | |].
  - pose proof (Hsym b a Hba). lia.
  - pose proof (Hafter a b a ltac:(lia) ltac:(lia)). pose proof (Hrefl a). lia.
Qed.

Lemma consistentComparator_transitive {A} (compare : A → A → Z) a b c :
  consistentComparator compare →
  compare a b <= 0 → compare b c <= 0 → compare a c <= 0.
Proof.
  intros Hconsistent Hab Hbc.
  destruct (Z.leb_spec (compare a c) 0) as [| Hac]; [done | exfalso].
  pose proof (consistentComparator_before _ a c Hconsistent ltac:(lia)) as Hca.
  destruct Hconsistent as (Hrefl & Hsym & Hlevel & Hbefore & Hafter).
  destruct (Z.lt_trichotomy (compare a b) 0) as [Hab' | [Hab' | Hab']]; [| | lia];
    destruct (Z.lt_trichotomy (compare b c) 0) as [Hbc' | [Hbc' | Hbc']]; try lia.
  - pose proof (Hbefore a b c Hab' Hbc'). lia.
  - pose proof (Hbefore c a b Hca Hab'). pose proof (Hsym b c Hbc'). lia.
  - pose proof (Hbefore b c a Hbc' Hca). pose proof (Hsym a b Hab'). lia.
  - pose proof (Hlevel a b c Hab' Hbc'). lia.
Qed.

Section layers_further.
Context `{Collaborators}.
Implicit Types (st : HookInput) (layers : list LayerWithDateItems).

(** X7.  The selected layers are the layers of the store, each as many times
    as the store has it: sorting loses no layer and invents none. *)
Theorem selectedLayers_Permutation st :
  selectedLayers st ≡ₚ unsortedSelectedLayers st.
Proof. apply sort_Permutation. Qed.

(** X8.  When [layerOrdering] is a consistent comparator, every selected
    layer comes before the layers that follow it in the order of
    [layerOrdering]. *)
Theorem selectedLayers_sorted st :
  consistentComparator layerOrdering →
  StronglySorted (λ a b, layerOrdering a b <= 0) (selectedLayers st).
Proof.
  intros Hconsistent. unfold selectedLayers, sort.
  induction (unsortedSelectedLayers st) as [| x a IH]; [constructor |].
  cbn [foldr].
  apply sort_insert_sorted; [| | done].
  - intros a' b'. by apply consistentComparator_total.
  - intros a' b' c'. by apply consistentComparator_transitive.
Qed.

(** X11.  The layers with date support keep the order of the selected
    layers. *)
Theorem selectedLayersWithDateSupport_sublist st layers :
  selectedLayersWithDateSupport st = Some layers →
  layer <$> layers `sublist_of` selectedLayers st.
Proof.
  unfold selectedLayersWithDateSupport. intros Hall%mapM_Some_1.
  assert (Heq : layer <$> layers
                = filter (λ x, isMainLayer (id x) (selectedLayers st) = true)
                    (filter (λ x, supportsDates (serverAvailableDates st) x = true)
                       (selectedLayers st))).
  { induction Hall as [| x l xs ls Hfx _ IH]; [done |].
    rewrite fmap_cons, IH. f_equal.
    destruct (getPossibleDatesForLayer x _); [by injection Hfx as <- | done]. }
  rewrite Heq. etrans; apply sublist_filter.
Qed.

(** X12.  A parameter of the address bar holds one layer id more than it has
    commas, also when it is the empty string, and the number of active layers
    is the number of ids of the two parameters. *)
Theorem numberOfActiveLayers_commas st :
  numberOfActiveLayers st
  = (idsOf (hazardLayerIds st) + idsOf (baselineLayerIds st))%nat.
Proof.
  assert (Hsplit : ∀ s, length (split_comma s) = S (commas s)).
  { induction s as [| c s IH]; [done |]. cbn [split_comma commas].
    destruct (Ascii.eqb c ","); [cbn [length]; lia |].
    destruct (split_comma s); [done | cbn [length] in *; lia]. }
  unfold numberOfActiveLayers, hazardLayersArray, baselineLayersArray, idsOf.
  destruct (hazardLayerIds st), (baselineLayerIds st); by rewrite ?Hsplit.
Qed.

End layers_further.

(** ** The effects of the address bar *)

Section effects_further.
Context `{Collaborators}.
Implicit Types (st : HookInput) (layers : list LayerWithDateItems).

Lemma invalidLayersIds_nil st layerId :
  invalidLayersIds st = [] → layerId ∈ urlLayerIds st →
  is_Some (LayerDefinitions !! layerId).
Proof.
  intros Hvalid Hin. destruct (LayerDefinitions !! layerId) as [l |] eqn:Hl; [done |].
  exfalso. eapply (filter_nil_not_elem_of _ _ layerId Hvalid); [| done].
  rewrite elem_of_layerDefinitionIds, Hl. by intros [? ?].
Qed.

(** X13.  When every layer id of the address bar is in the registry, adding
    the missing layers does not throw, and it goes through the layer ids of
    the address bar that no selected layer has, in their order: for each, the
    effects of the check of its dates, and then the layer of the registry is
    added, unless the check throws, in which case the error is logged and the
    layer is not added. *)
Theorem addMissingLayers_effects st :
  invalidLayersIds st = [] →
  addMissingLayers st = (concat (addMissingLayer st <$> missingLayers st), Some tt).
Proof.
  intros Hvalid. unfold addMissingLayers. apply forEach_effects. intros layerId Hin.
  apply list_elem_of_filter in Hin as [_ Hin].
  destruct (invalidLayersIds_nil _ _ Hvalid Hin) as [l Hl].
  unfold addMissingLayer. rewrite Hl. unfold bind. cbn [fst snd].
  by destruct (checkLayerAvailableDatesAndContinueOrRemove l _) as [effects [message |]].
Qed.

(** X14.  When every layer id of the address bar is the id of a selected
    layer, adding the missing layers does nothing. *)
Theorem addMissingLayers_all_selected st :
  (∀ layerId, layerId ∈ urlLayerIds st → layerId ∈ selectedLayersIds st) →
  addMissingLayers st = ([], Some tt).
Proof.
  intros Hall. unfold addMissingLayers.
  replace (missingLayers st) with (@nil string); [done |].
  symmetry. apply elem_of_nil_inv. intros layerId [Hmissing Hin]%list_elem_of_filter.
  by apply Hmissing, Hall.
Qed.

(** X15.  The effect of the address bar never throws. *)
Theorem loadFromUrl_returns st : (loadFromUrl st).2 = Some tt.
Proof.
  unfold loadFromUrl. destruct (_ || _); [done |].
  destruct (invalidLayersIds st) as [| layerId invalid] eqn:Hvalid; [| done].
  cbn [length Nat.ltb Nat.leb]. unfold bind.
  rewrite (addMissingLayers_returns _ Hvalid).
  destruct (_ || _); [done |]. by destruct (dateInt st).
Qed.

(** X16.  When the guard of the effect lets it run, every layer id of the
    address bar is in the registry, and the date of the address bar gives a
    date integer other than the selected date, the effect adds the missing
    layers, dispatches the date integer, which is midday UTC of its day, as
    the start date, and writes it to the address bar in the default
    format. *)
Theorem loadFromUrl_date st s t :
  loadRuns st → invalidLayersIds st = [] →
  urlDate st = Some s → s ≠ "" →
  dateInt st = Some t → selectedDate st ≠ Some t →
  t = midday (Day t)
  ∧ loadFromUrl st
    = ((addMissingLayers st).1
       ++ [updateDateRange t; updateHistory DATE (getFormattedDate (Some t))],
       Some tt).
Proof.
  intros [Hids Hdates] Hvalid Hurl Hne Hint Hother. split.
  { unfold dateInt in Hint. by eapply setUTCHours_12_0_0_0_midday. }
  unfold loadFromUrl. rewrite Hdates, Hvalid, (load_guard _ Hids), Hurl, Hint.
  unfold truthy_string.
  replace (String.eqb s "") with false by (symmetry; by apply String.eqb_neq).
  assert (number_eq (Some t) (selectedDate st) = false) as ->.
  { destruct (selectedDate st) as [date |]; [| done]. cbn [number_eq].
    apply Z.eqb_neq. congruence. }
  cbn [orb length Nat.ltb Nat.leb negb]. unfold bind.
  by rewrite (addMissingLayers_returns _ Hvalid).
Qed.

(** X17.  When the guard of the effect lets it run and every layer id of the
    address bar is in the registry, the effect only adds the missing layers,
    and dispatches no date, if the address bar has no date or its date integer
    is the selected date. *)
Theorem loadFromUrl_date_in_sync st :
  loadRuns st → invalidLayersIds st = [] →
  truthy_string (urlDate st) = false
  ∨ (∃ t, dateInt st = Some t ∧ selectedDate st = Some t) →
  loadFromUrl st = ((addMissingLayers st).1, Some tt).
Proof.
  intros [Hids Hdates] Hvalid Hsync.
  unfold loadFromUrl. rewrite Hdates, Hvalid, (load_guard _ Hids).
  cbn [orb length Nat.ltb Nat.leb]. unfold bind.
  rewrite (addMissingLayers_returns _ Hvalid).
  replace (negb _ || number_eq _ _) with true.
  { cbn [ret fst snd]. by rewrite app_nil_r. }
  destruct Hsync as [-> | (t & -> & ->)]; [done |].
  cbn [number_eq]. rewrite Z.eqb_refl. by rewrite orb_true_r.
Qed.

(** X18.  A date of the address bar that is the day of a time value of the
    years 0000 to 9999, as [toISOString] writes it, gives midday UTC of that
    day as the date integer. *)
Theorem dateInt_of_dayString st t :
  fourDigitYear t →
  urlDate st = Some (slice_0_10 (toISOString t)) →
  dateInt st = Some (midday (Day t)).
Proof.
  intros Ht Hurl. unfold dateInt. rewrite Hurl.
  assert (String.eqb (slice_0_10 (toISOString t)) "" = false) as ->.
  { apply String.eqb_neq.
    destruct (civil_from_days (Day t)) as [[y m] d] eqn:Hc.
    rewrite (slice_toISOString t y m d Ht Hc).
    pose proof (civil_from_days_year _ _ _ _ Hc (fourDigitYear_Day _ Ht)) as Hy.
    by destruct (digits_value_pad4 y) as (y1 & y2 & y3 & y4 & -> & _); [lia |]. }
  apply (selectable_of_dayString _ {| displayDate := t |} Ht).
Qed.

(** X19.  The effect of the default layer acts once: a run that does
    something sets [defaultLayerAttempted], and once it is set no run does
    anything, whatever the address bar and the default layer are. *)
Theorem loadDefaultLayer_once st st' defaultLayer defaultLayer' attempted :
  (loadDefaultLayer st defaultLayer attempted).1.1 ≠ [] →
  (loadDefaultLayer st defaultLayer attempted).2 = true
  ∧ loadDefaultLayer st' defaultLayer'
      (loadDefaultLayer st defaultLayer attempted).2
    = (ret tt, true).
Proof.
  intros Hacts.
  assert (Hset : (loadDefaultLayer st defaultLayer attempted).2 = true).
  { revert Hacts. unfold loadDefaultLayer.
    destruct (_ || _); [done |]. destruct defaultLayer as [name |]; [| done].
    destruct (String.eqb name ""); [done |].
    destruct (negb attempted && _); [by destruct (LayerDefinitions !! name) |].
    by destruct (negb attempted). }
  split; [done |]. rewrite Hset. unfold loadDefaultLayer.
  destruct (_ || _); [done |]. destruct defaultLayer' as [name |]; [| done].
  by destruct (String.eqb name "").
Qed.

(** X20.  The effect of the default layer does not throw, and a run of it
    does one thing at most: it writes the default layer to the address bar
    when the registry has it, or it notifies an error when it has not. *)
Theorem loadDefaultLayer_effects st defaultLayer attempted :
  (loadDefaultLayer st defaultLayer attempted).1.2 = Some tt
  ∧ ∀ e, e ∈ (loadDefaultLayer st defaultLayer attempted).1.1 →
         (loadDefaultLayer st defaultLayer attempted).1.1 = [e]
         ∧ ∃ name, defaultLayer = Some name
             ∧ match LayerDefinitions !! name with
               | Some l => e = updateHistory (getUrlKey l) name
               | None =>
                   e = addNotification ("Invalid default layer identifier: " +:+ name)
                         error
               end.
Proof.
  unfold loadDefaultLayer.
  destruct (_ || _); [split; [done | by intros e ?%elem_of_nil] |].
  destruct defaultLayer as [name |]; [| split; [done | by intros e ?%elem_of_nil]].
  destruct (String.eqb name ""); [split; [done | by intros e ?%elem_of_nil] |].
  destruct attempted; cbn [negb andb]; [split; [done | by intros e ?%elem_of_nil] |].
  destruct (bool_decide_reflect (name ∈ layerDefinitionIds)) as [Hin | Hout].
  - apply elem_of_layerDefinitionIds in Hin as [l Hl]. rewrite Hl. split; [done |].
    intros e ->%list_elem_of_singleton. split; [done |]. exists name. by rewrite Hl.
  - split; [done |]. intros e ->%list_elem_of_singleton. split; [done |].
    exists name. split; [done |].
    destruct (LayerDefinitions !! name) as [l |] eqn:Hl; [| done].
    destruct Hout. apply elem_of_layerDefinitionIds. by rewrite Hl.
Qed.

End effects_further.

(** ** The effects that reconcile the layers and the date *)

Section reconcile_further.
Context `{Collaborators}.
Implicit Types (st : HookInput) (layers : list LayerWithDateItems).

(** X21.  When a single layer is selected, it has date support, no date is
    selectable and a date is selected, the effect of the layers without a
    common date throws before it dispatches anything: there is no last but
    one layer to name in the notification. *)
Theorem removeLayerWithoutOverlap_single_layer st layers date :
  length (selectedLayers st) = 1%nat →
  selectedLayersWithDateSupport st = Some layers → layers ≠ [] →
  selectedLayerDates layers (serverAvailableDates st) = [] →
  selectedDate st = Some date → date ≠ 0 →
  removeLayerWithoutOverlap st = ([], None).
Proof.
  intros Hone Hlayers Hne Hnone Hdate Hnz. unfold removeLayerWithoutOverlap.
  rewrite Hlayers, Hnone, Hdate, Hone. unfold truthy_number.
  replace (date =? 0) with false by (symmetry; by apply Z.eqb_neq).
  by destruct layers.
Qed.

(** X22.  When the layers with date support, with date items in the years
    0000 to 9999, all have a date item on some day, the effect of the layers
    without a common date does nothing: it removes no layer. *)
Theorem removeLayerWithoutOverlap_shared_day st layers d :
  selectedLayersWithDateSupport st = Some layers →
  (∀ l, l ∈ layers → fourDigitYears (serverAvailableDates st) l) →
  (∀ l, l ∈ layers → hasDateOn (serverAvailableDates st) d l) →
  removeLayerWithoutOverlap st = ([], Some tt).
Proof.
  intros Hlayers Hyears Hall. unfold removeLayerWithoutOverlap. rewrite Hlayers.
  destruct (decide (layers = [])) as [-> | Hne]; [done |].
  pose proof (shared_day_selectable _ _ _ Hne Hyears Hall) as Hin.
  by destruct (selectedLayerDates layers (serverAvailableDates st));
    [apply elem_of_nil in Hin |].
Qed.

(** X23.  Whenever the effect of the layers without a common date removes a
    layer from the store, that layer is the last but one of the selected
    layers, the effect has notified its removal and has removed it from the
    address bar as well, and it removes no other layer. *)
Theorem removeLayerWithoutOverlap_removal st l :
  removeLayer l ∈ (removeLayerWithoutOverlap st).1 →
  at_index (selectedLayers st) (Z.of_nat (length (selectedLayers st)) - 2) = Some l
  ∧ noOverlapNotification l ∈ (removeLayerWithoutOverlap st).1
  ∧ removeLayerFromUrl (getUrlKey l) (id l) ∈ (removeLayerWithoutOverlap st).1
  ∧ ∀ l', removeLayer l' ∈ (removeLayerWithoutOverlap st).1 → l' = l.
Proof.
  unfold removeLayerWithoutOverlap, removeLayerAndUpdateHistory, noOverlapNotification.
  destruct (selectedLayersWithDateSupport st) as [layers |];
    [| by intros ?%elem_of_nil].
  destruct (_ || _); [by intros ?%elem_of_nil |].
  destruct (at_index _ (_ - 2)) as [layerToRemove |]; [| by intros ?%elem_of_nil].
  destruct (at_index _ (_ - 1)) as [layerToKeep |]; unfold bind; cbn [perform fst snd];
    [| by intros [? | ?%elem_of_nil]%elem_of_cons].
  destruct (selectedDate st) as [date |]; cbn [ret fst snd app];
    [| by intros [? | ?%elem_of_nil]%elem_of_cons].
  destruct (date =? 0); cbn [ret fst snd app];
    [by intros [? | ?%elem_of_nil]%elem_of_cons |].
  assert (Hremoved : ∀ rest l',
            (∀ l'', removeLayer l'' ∉ rest) →
            removeLayer l'
            ∈ addNotification
                ("No dates overlap with the selected layers. Removing previous layer: "
                 +:+ id layerToRemove +:+ ".") warning
              :: removeLayerFromUrl (getUrlKey layerToRemove) (id layerToRemove)
              :: removeLayer layerToRemove :: rest →
            l' = layerToRemove).
  { intros rest l' Hrest Hin.
    repeat (apply elem_of_cons in Hin as [Hin | Hin]; [by try injection Hin |]).
    by apply Hrest in Hin. }
  destruct (getPossibleDatesForLayer layerToKeep _) as [items |];
    cbn [perform throw fst snd app]; intros Hin.
  - assert (Hrest : ∀ l'',
              removeLayer l''
              ∉ [updateHistory DATE
                   (getFormattedDate
                      (findClosestDate date ((λ x, Some (displayDate x)) <$> items)))])
      by (by intros l'' [? | ?%elem_of_nil]%elem_of_cons).
    pose proof (Hremoved _ _ Hrest Hin) as ->.
    split_and!; [done | by left | by right; left | intros l'; apply Hremoved, Hrest].
  - assert (Hrest : ∀ l'', removeLayer l'' ∉ @nil Effect)
      by (by intros l'' ?%elem_of_nil).
    pose proof (Hremoved _ _ Hrest Hin) as ->.
    split_and!; [done | by left | by right; left | intros l'; apply Hremoved, Hrest].
Qed.

(** X24.  When the guard of the last effect lets it run, the effect does
    nothing exactly when the search of the effect, [binaryIncludes] on the
    date items of a layer with their dates set to midday UTC, finds the
    selected date set to midday UTC for every layer with date support. *)
Theorem snapDateOutOfRange_nothing st layers date :
  selectedLayersWithDateSupport st = Some layers → snapRuns st date →
  (snapDateOutOfRange st).1 = []
  ↔ ∀ l, l ∈ layers → lacksSelectedDate date l = false.
Proof.
  intros Hlayers Hruns. rewrite (snapDateOutOfRange_effects _ _ _ Hlayers Hruns).
  cbn [fst]. clear Hlayers.
  assert (Hsome : ∀ l, snapEffects st layers date l ≠ []).
  { intros l. unfold snapEffects. by destruct (datesAreEqualWithoutTime _ _). }
  revert Hsome. generalize (snapEffects st layers date). intros effects Hsome.
  induction layers as [| l layers' IH]; cbn [fmap list_fmap concat].
  - split; [by intros _ l ?%elem_of_nil | done].
  - change (list_fmap ?A ?B ?f ?x) with (f <$> x). split.
    + intros [Hl Hrest]%app_eq_nil l' [Heq | Hl']%elem_of_cons.
      * subst l'. destruct (lacksSelectedDate date l); [by apply Hsome in Hl | done].
      * by apply IH.
    + intros Hall. rewrite (Hall l) by (by left). cbn [app].
      apply IH. intros; apply Hall; by right.
Qed.

End reconcile_further.

(** ** The tabs of the left panel *)

Section tabs_further.
Context `{LeftPanelEnums}.

(** X25.  The number of the tabs that are rendered is the [nTabs] that
    divides the width of a tab, and a panel is rendered for each of them, in
    the same order: the tabs fill the width of the bar. *)
Theorem renderedTabs_nTabs (i : TabsInput) :
  Z.of_nat (length (renderedTabs i)) = nTabs i
  ∧ renderedPanels i = renderedTabs i.
Proof.
  unfold renderedTabs, renderedPanels, nTabs, renderedChartsTab, renderedTablesTab,
    renderedChartsPanel, renderedTablesPanel.
  by destruct (areChartLayersAvailable i), (areTablesAvailable i).
Qed.

(** X26.  With a number of active layers that is not negative, the label of
    the layers tab has no badge exactly when the layers tab is open, or the
    panel is folded, or there is neither an active layer nor an analysis
    result; a badge never shows zero. *)
Theorem renderedLayersTabLabel_badge (i : TabsInput) :
  0 <= activeLayers i →
  (renderedLayersTabLabel i = None
   ↔ tabValue i = Panel_Layers ∨ panelSize i = PanelSize_folded
     ∨ (activeLayers i = 0 ∧ analysisData i = false))
  ∧ ∀ n, renderedLayersTabLabel i = Some n → 1 <= n.
Proof.
  intros Hpos. unfold renderedLayersTabLabel, layersBadgeContent.
  destruct (decide (tabValue i = Panel_Layers)) as [Htab | Htab].
  { rewrite bool_decide_eq_false_2 by (by intros ?). cbn [andb].
    split; [split; [by left | done] | done]. }
  rewrite (bool_decide_eq_true_2 _ Htab).
  destruct (decide (panelSize i = PanelSize_folded)) as [Hsize | Hsize].
  { rewrite (bool_decide_eq_false_2 (panelSize i ≠ _)) by (by intros ?). cbn [andb].
    split; [split; [by right; left | done] | done]. }
  rewrite (bool_decide_eq_true_2 _ Hsize). cbn [andb].
  destruct (analysisData i); cbn [negb];
    destruct (Z.leb_spec 1 (activeLayers i + 1));
    destruct (Z.leb_spec 1 (activeLayers i));
    (split; [split; [intros ? | intros [? | [? | [? ?]]]] | intros n ?]);
    try done; try lia; simplify_eq; try lia.
Qed.

End tabs_further.

(** ** The further properties at the example inputs *)

Lemma selectedLayerDates_counts_witness :
  Some (midday (Day jan1))
  ∈ @selectedLayerDates prism (floodAndStormOf floodTwiceOnJan1) floodTwiceOnJan1
  ↔ (length (floodAndStormOf floodTwiceOnJan1)
     ≤ @itemsOn prism floodTwiceOnJan1 (Day jan1) (floodAndStormOf floodTwiceOnJan1))%nat.
Proof.
  apply (@selectedLayerDates_counts prism (floodAndStormOf floodTwiceOnJan1)
           floodTwiceOnJan1 (Day jan1)); [done |].
  apply fourDigitYears_floodTwiceOnJan1.
Defined.

Lemma hasDateOn_floodAndStorm l :
  l ∈ floodAndStormOf floodAndStorm → @hasDateOn prism floodAndStorm (Day jan2) l.
Proof.
  revert l. each_of_list; exists (dateItem jan2).
  - split; [vm_compute; right; left | reflexivity].
  - split; [vm_compute; left | reflexivity].
Defined.

Lemma selectedLayerDates_shared_day_kept_witness :
  Some (midday (Day jan2))
  ∈ @selectedLayerDates prism (floodAndStormOf floodAndStorm) floodAndStorm
  ∧ (length (floodAndStormOf floodAndStorm)
     ≤ @itemsOn prism floodAndStorm (Day jan2) (floodAndStormOf floodAndStorm))%nat.
Proof.
  apply (@selectedLayerDates_shared_day_kept prism (floodAndStormOf floodAndStorm)
           floodAndStorm (Day jan2)); [done | |].
  - intros l Hl. by destruct (distinctDays_floodAndStorm l Hl).
  - apply hasDateOn_floodAndStorm.
Defined.

Lemma selectedLayerDates_from_items_witness :
  ∃ l item, l ∈ floodAndStormOf floodTwiceOnJan1
            ∧ item ∈ @possibleDates prism floodTwiceOnJan1 l
            ∧ Some (midday (Day jan1)) = Some (midday (Day (displayDate item))).
Proof.
  apply (@selectedLayerDates_from_items prism (floodAndStormOf floodTwiceOnJan1)
           floodTwiceOnJan1 (Some (midday (Day jan1))));
    [apply fourDigitYears_floodTwiceOnJan1 |].
  rewrite selectedLayerDates_floodTwiceOnJan1. left.
Defined.

Lemma selectedLayerDates_single_layer_witness :
  Some (midday (Day jan3))
  ∈ @selectedLayerDates prism [withDates floodAndStorm storm] floodAndStorm
  ↔ ∃ item, item ∈ @possibleDates prism floodAndStorm (withDates floodAndStorm storm)
            ∧ Some (midday (Day jan3)) = Some (midday (Day (displayDate item))).
Proof.
  apply (@selectedLayerDates_single_layer prism (withDates floodAndStorm storm)
           floodAndStorm (Some (midday (Day jan3)))).
  apply (distinctDays_floodAndStorm (withDates floodAndStorm storm)).
  right; left.
Defined.

Lemma selectedLayerDates_Permutation_witness :
  Some (midday (Day jan2))
  ∈ @selectedLayerDates prism (floodAndStormOf floodAndStorm) floodAndStorm
  ↔ Some (midday (Day jan2))
    ∈ @selectedLayerDates prism
        [withDates floodAndStorm storm; withDates floodAndStorm flood] floodAndStorm.
Proof.
  apply (@selectedLayerDates_Permutation prism (floodAndStormOf floodAndStorm)
           [withDates floodAndStorm storm; withDates floodAndStorm flood]
           floodAndStorm (Some (midday (Day jan2)))).
  apply perm_swap.
Defined.

Lemma selectedLayerDates_add_layer_witness :
  Some (midday (Day jan2))
  ∈ @selectedLayerDates prism [withDates floodAndStorm storm] floodAndStorm.
Proof.
  apply (@selectedLayerDates_add_layer prism (withDates floodAndStorm flood)
           [withDates floodAndStorm storm] floodAndStorm (Some (midday (Day jan2))));
    [done | | |].
  - apply (distinctDays_floodAndStorm (withDates floodAndStorm flood)). left.
  - intros l Hl. by destruct (distinctDays_floodAndStorm l Hl).
  - change ([withDates floodAndStorm flood; withDates floodAndStorm storm])
      with (floodAndStormOf floodAndStorm).
    rewrite selectedLayerDates_floodAndStorm. left.
Defined.

Lemma consistentComparator_priorityOrdering : consistentComparator priorityOrdering.
Proof.
  unfold consistentComparator, priorityOrdering. split_and!; intros; lia.
Defined.

Lemma selectedLayers_sorted_witness :
  StronglySorted (λ a b, priorityOrdering a b <= 0) (@selectedLayers prism sheltersAddedLast).
Proof.
  apply (@selectedLayers_sorted prism sheltersAddedLast).
  exact consistentComparator_priorityOrdering.
Defined.

Lemma selectedLayersWithDateSupport_sublist_witness :
  layer <$> oneDayEachLayers `sublist_of` @selectedLayers prism jan3Selected.
Proof.
  exact (@selectedLayersWithDateSupport_sublist prism jan3Selected oneDayEachLayers
           selectedLayersWithDateSupport_jan3Selected).
Defined.

Lemma invalidLayersIds_jan2InUrl : @invalidLayersIds prism jan2InUrl = [].
Proof. vm_compute. reflexivity. Defined.

Lemma loadRuns_jan2InUrl : loadRuns jan2InUrl.
Proof. split; [left |]; vm_compute; reflexivity. Defined.

Lemma loadRuns_jan2Selected : loadRuns jan2Selected.
Proof. split; [left |]; vm_compute; reflexivity. Defined.


Lemma addMissingLayers_effects_witness :
  @addMissingLayers prism jan2InUrl
  = (concat (@addMissingLayer prism jan2InUrl <$> @missingLayers prism jan2InUrl),
     Some tt).
Proof.
  apply (@addMissingLayers_effects prism jan2InUrl). exact invalidLayersIds_jan2InUrl.
Defined.

Lemma addMissingLayers_all_selected_witness :
  @addMissingLayers prism jan2Selected = ([], Some tt).
Proof.
  apply (@addMissingLayers_all_selected prism jan2Selected).
  replace (urlLayerIds jan2Selected) with ["flood"; "storm"]
    by (vm_compute; reflexivity).
  replace (@selectedLayersIds prism jan2Selected) with ["flood"; "storm"]
    by (vm_compute; reflexivity).
  done.
Defined.

Lemma loadFromUrl_date_witness :
  midday (Day jan2) = midday (Day (midday (Day jan2)))
  ∧ @loadFromUrl prism jan2InUrl
    = ((@addMissingLayers prism jan2InUrl).1
       ++ [updateDateRange (midday (Day jan2));
           updateHistory DATE (@getFormattedDate prism (Some (midday (Day jan2))))],
       Some tt).
Proof.
  apply (@loadFromUrl_date prism jan2InUrl "2024-01-02" (midday (Day jan2)));
    [exact loadRuns_jan2InUrl | exact invalidLayersIds_jan2InUrl | reflexivity
    | discriminate | vm_compute; reflexivity | discriminate].
Defined.

Lemma loadFromUrl_date_in_sync_witness :
  @loadFromUrl prism jan2Selected = ((@addMissingLayers prism jan2Selected).1, Some tt).
Proof.
  apply (@loadFromUrl_date_in_sync prism jan2Selected);
    [exact loadRuns_jan2Selected | vm_compute; reflexivity |].
  right. exists (midday (Day jan2)). split; [vm_compute; reflexivity | reflexivity].
Defined.

Lemma dateInt_of_dayString_witness :
  @dateInt prism jan2InUrl = Some (midday (Day (jan2 + 6 * msPerHour))).
Proof.
  apply (@dateInt_of_dayString prism jan2InUrl (jan2 + 6 * msPerHour));
    [vm_compute; done | vm_compute; reflexivity].
Defined.

Lemma loadDefaultLayer_once_witness :
  (@loadDefaultLayer prism noLayerInUrl (Some "flood") false).2 = true
  ∧ @loadDefaultLayer prism jan2InUrl (Some "storm")
      (@loadDefaultLayer prism noLayerInUrl (Some "flood") false).2
    = (ret tt, true).
Proof.
  apply (@loadDefaultLayer_once prism noLayerInUrl jan2InUrl (Some "flood") (Some "storm")
           false).
  replace (@loadDefaultLayer prism noLayerInUrl (Some "flood") false).1.1
    with [updateHistory HAZARD "flood"] by (vm_compute; reflexivity).
  discriminate.
Defined.

Example loadFromUrl_jan2InUrl :
  @loadFromUrl prism jan2InUrl
  = ([addLayer flood; updateDateRange (midday (Day jan2));
      updateHistory DATE "2024-01-02"], Some tt).
Proof. vm_compute. reflexivity. Qed.

Lemma removeLayerWithoutOverlap_single_layer_witness :
  @removeLayerWithoutOverlap prism floodAlone = ([], None).
Proof.
  apply (@removeLayerWithoutOverlap_single_layer prism floodAlone
           [withDates floodWithoutDates flood] (midday (Day jan1)));
    [reflexivity | vm_compute; reflexivity | discriminate | vm_compute; reflexivity
    | reflexivity | vm_compute; discriminate].
Defined.

Lemma removeLayerWithoutOverlap_shared_day_witness :
  @removeLayerWithoutOverlap prism jan2Shared = ([], Some tt).
Proof.
  apply (@removeLayerWithoutOverlap_shared_day prism jan2Shared
           (floodAndStormOf floodAndStorm) (Day jan2)); [vm_compute; reflexivity | |].
  - intros l Hl. by destruct (distinctDays_floodAndStorm l Hl).
  - apply hasDateOn_floodAndStorm.
Defined.

Lemma removeLayerWithoutOverlap_removal_witness :
  at_index (@selectedLayers prism sheltersAddedLast)
    (Z.of_nat (length (@selectedLayers prism sheltersAddedLast)) - 2) = Some shelters
  ∧ noOverlapNotification shelters ∈ (@removeLayerWithoutOverlap prism sheltersAddedLast).1
  ∧ removeLayerFromUrl (@getUrlKey prism shelters) (id shelters)
    ∈ (@removeLayerWithoutOverlap prism sheltersAddedLast).1
  ∧ ∀ l', removeLayer l' ∈ (@removeLayerWithoutOverlap prism sheltersAddedLast).1 →
          l' = shelters.
Proof.
  apply (@removeLayerWithoutOverlap_removal prism sheltersAddedLast shelters).
  rewrite removeLayerWithoutOverlap_sheltersAddedLast. cbn [fst].
  do 2 right. left.
Defined.

Lemma selectedLayersWithDateSupport_jan2Shared :
  @selectedLayersWithDateSupport prism jan2Shared = Some (floodAndStormOf floodAndStorm).
Proof. vm_compute. reflexivity. Defined.

Lemma snapRuns_jan2Shared : @snapRuns prism jan2Shared (midday (Day jan2)).
Proof.
  split_and!; [reflexivity | vm_compute; discriminate | | vm_compute; reflexivity].
  exists "2024-01-02". split_and!; [reflexivity | discriminate | vm_compute; reflexivity].
Defined.

Example snapDateOutOfRange_jan2Shared :
  @snapDateOutOfRange prism jan2Shared = ([], Some tt).
Proof. vm_compute. reflexivity. Qed.

Lemma snapDateOutOfRange_nothing_witness :
  (@snapDateOutOfRange prism jan2Shared).1 = []
  ↔ ∀ l, l ∈ floodAndStormOf floodAndStorm →
         @lacksSelectedDate prism (midday (Day jan2)) l = false.
Proof.
  exact (@snapDateOutOfRange_nothing prism jan2Shared (floodAndStormOf floodAndStorm)
           (midday (Day jan2)) selectedLayersWithDateSupport_jan2Shared
           snapRuns_jan2Shared).
Defined.

Lemma renderedLayersTabLabel_badge_witness :
  (@renderedLayersTabLabel panelNames analysisTabOpen = None
   ↔ @tabValue panelNames analysisTabOpen = @Panel_Layers panelNames
     ∨ @panelSize panelNames analysisTabOpen = @PanelSize_folded panelNames
     ∨ (@activeLayers panelNames analysisTabOpen = 0
        ∧ @analysisData panelNames analysisTabOpen = false))
  ∧ ∀ n, @renderedLayersTabLabel panelNames analysisTabOpen = Some n → 1 <= n.
Proof.
  apply (@renderedLayersTabLabel_badge panelNames analysisTabOpen). cbn. lia.
Defined.

Example renderedLayersTabLabel_analysisTabOpen :
  @renderedLayersTabLabel panelNames analysisTabOpen = Some 3
  ∧ @renderedTabs panelNames analysisTabOpen = ["layers"; "analysis"; "tables"]
  ∧ @nTabs panelNames analysisTabOpen = 3.
Proof. vm_compute. done. Qed.
